(** * air-sensors: PMSA003I particle sensor and SGP30 gas sensor drivers

    A shallow embedding of the two Go packages [pmsa003i] and [sgp30] and of
    the properties of their frame decoding, integrity checks and calibration
    persistence.

    Conventions of the embedding:
    - a Go [byte] is a [Z] in [0, 256); [uint16] and [uint64] arithmetic is
      written with its wrap-around ([u16], [u64]);
    - a fixed array ([[9]byte]) is a [list Z] of that length; a Go slice is a
      [slice], which also carries the part of its backing array between its
      length and its capacity, because a slice expression [s[lo:hi]] is
      checked against the capacity;
    - the I2C bus, the wall clock and the file system are the [World]; every
      driver function is a state transformer over it that returns a value,
      an error value, or panics ([res]). *)

From Stdlib Require Import String ZArith List Bool Lia.
Import ListNotations.
Local Open Scope Z_scope.

(** ** Machine integers *)

Definition u8 (x : Z) : Z := x mod 256.
Definition u16 (x : Z) : Z := x mod 65536.
Definition u64 (x : Z) : Z := x mod 2 ^ 64.

Definition is_byte (b : Z) : Prop := 0 <= b < 256.
Definition bytes (l : list Z) : Prop := Forall is_byte l.

Definition is_byteb (b : Z) : bool := (0 <=? b) && (b <? 256).
Definition bytesb (l : list Z) : bool := forallb is_byteb l.

(** [a[lo:hi]] on an array or on a slice used within its length. *)
Definition sub (a : list Z) (lo hi : nat) : list Z :=
  firstn (hi - lo) (skipn lo a).

(** The index expression [a[i]] for an [i] of type [int]: a run-time panic
    unless [0 <= i < len(a)]. *)
Definition index (a : list Z) (i : Z) : option Z :=
  if i <? 0 then None else nth_error a (Z.to_nat i).

(** ** Go slices *)

Record slice := mkSlice {
  elems : list Z;   (* s[0], ..., s[len(s)-1] *)
  spare : list Z    (* the backing array from len(s) up to cap(s) *)
}.

Definition slice_of (l : list Z) : slice := mkSlice l [].
Definition len (s : slice) : nat := length (elems s).
Definition cap (s : slice) : nat := (length (elems s) + length (spare s))%nat.

(** The slice expression [s[lo:hi]]: a run-time panic unless
    [lo <= hi <= cap(s)]. *)
Definition reslice (s : slice) (lo hi : nat) : option (list Z) :=
  if ((lo <=? hi) && (hi <=? cap s))%nat
  then Some (sub (elems s ++ spare s) lo hi)
  else None.

(** ** Results of a call: a value, an error value, or a run-time panic *)

Inductive res (E A : Type) : Type :=
| Ok (a : A)
| Err (e : E)
| Panic.
Arguments Ok {E A} a.
Arguments Err {E A} e.
Arguments Panic {E A}.

Definition is_ok {E A} (r : res E A) : bool :=
  match r with Ok _ => true | _ => false end.
Definition is_err {E A} (r : res E A) : bool :=
  match r with Err _ => true | _ => false end.

(** ** The world the drivers run in *)

(** What the drivers do to the outside, in order. *)
Inductive event : Type :=
| EvTx (addr : Z) (w : list Z) (n : nat)   (* conn.Tx(w, r) with len(r) = n *)
| EvSleep (d : Z)                          (* time.Sleep(d), nanoseconds *)
| EvWriteFile (path : string) (data : list Z).

(** The error of the transport itself. *)
Inductive bus_error : Type := TransportFailure.

(** How a write to a file goes wrong, when it does: the file cannot be
    opened and stays as it is, or the write fails after the file was opened
    and truncated, with the first [written] bytes of the data in it. *)
Inductive write_fault : Type :=
| OpenFails
| WriteFails (written : nat).

Record World := mkWorld {
  bus : list (option (list Z));
      (* outcome of the coming bus exchanges, in order: [None] is a transport
         failure, [Some r] the bytes the device sends back *)
  clock : nat -> Z;
      (* the k-th reading of the wall clock, in nanoseconds *)
  ticks : nat;
      (* number of clock readings taken so far *)
  fs : string -> option (list Z);
      (* contents of the files that exist *)
  faults : string -> option write_fault;
      (* the paths at which writing fails, and how *)
  slack : list Z;
      (* what lies between len and cap of a buffer handed out by ReadFile *)
  log : list event
}.

Definition with_bus (w : World) (b : list (option (list Z))) : World :=
  mkWorld b (clock w) (ticks w) (fs w) (faults w) (slack w) (log w).
Definition with_ticks (w : World) (k : nat) : World :=
  mkWorld (bus w) (clock w) k (fs w) (faults w) (slack w) (log w).
Definition with_fs (w : World) (f : string -> option (list Z)) : World :=
  mkWorld (bus w) (clock w) (ticks w) f (faults w) (slack w) (log w).
Definition emit (w : World) (e : event) : World :=
  mkWorld (bus w) (clock w) (ticks w) (fs w) (faults w) (slack w)
          (log w ++ [e]).

(** A read buffer of [n] zero bytes after the device's bytes were copied
    into it. *)
Definition fill (n : nat) (r : list Z) : list Z := firstn n (r ++ repeat 0 n).

(** [conn.Tx(w, r)] against the device at [addr]: one exchange that writes
    [wr] and reads [n] bytes.  With nothing left to answer the exchange
    fails. *)
Definition conn_Tx (addr : Z) (wr : list Z) (n : nat) (w : World)
  : res bus_error (list Z) * World :=
  let w1 := emit w (EvTx addr wr n) in
  match bus w with
  | [] => (Err TransportFailure, w1)
  | None :: rest => (Err TransportFailure, with_bus w1 rest)
  | Some r :: rest => (Ok (fill n r), with_bus w1 rest)
  end.

(** Times and durations are counted in nanoseconds, as [time.Duration] is;
    the saturation of a [Duration] at the ends of int64 is not modelled. *)

(** [time.Now()]. *)
Definition time_Now (w : World) : Z * World :=
  (clock w (ticks w), with_ticks w (S (ticks w))).

(** [time.Since(t)] is [time.Now().Sub(t)]. *)
Definition time_Since (t : Z) (w : World) : Z * World :=
  let (now, w1) := time_Now w in (now - t, w1).

(** [time.Sleep(d)]. *)
Definition time_Sleep (d : Z) (w : World) : unit * World :=
  (tt, emit w (EvSleep d)).

(** The errors of the file system. *)
Inductive fs_error : Type := NotExist | WriteFailed.

(** [ioutil.ReadFile(path)]: the whole file, or an error when there is
    none. *)
Definition ioutil_ReadFile (path : string) (w : World)
  : res fs_error slice * World :=
  match fs w path with
  | Some c => (Ok (mkSlice c (slack w)), w)
  | None => (Err NotExist, w)
  end.

Definition fs_put (f : string -> option (list Z)) (path : string)
           (data : list Z) : string -> option (list Z) :=
  fun p => if String.eqb p path then Some data else f p.

(** [ioutil.WriteFile(path, data, 0644)]: opens the file, which truncates
    it, writes the data and closes the file; an error of any of the three is
    returned. *)
Definition ioutil_WriteFile (path : string) (data : list Z) (w : World)
  : res fs_error unit * World :=
  let w1 := emit w (EvWriteFile path data) in
  match faults w path with
  | None => (Ok tt, with_fs w1 (fs_put (fs w) path data))
  | Some OpenFails => (Err WriteFailed, w1)
  | Some (WriteFails written) =>
      (Err WriteFailed, with_fs w1 (fs_put (fs w) path (firstn written data)))
  end.

Definition millisecond : Z := 1000000.
Definition second : Z := 1000 * millisecond.

(** ** Package github.com/sigurn/crc8 *)

Module crc8.

(** Modelled from the spec: package github.com/sigurn/crc8 is imported by
    sgp30.go but is not among the sources.  It is the table-driven CRC-8 of
    the parameter model the spec names in 4.3: a polynomial, an initial
    value, reflection of the input bytes and of the result, and a final
    XOR. *)
Record Params := mkParams {
  Poly : Z;
  Init : Z;
  RefIn : bool;
  RefOut : bool;
  XorOut : Z;
  Check : Z;
  Name : string
}.

(** Modelled from the spec: the table of package crc8, one entry per value
    of [crc ^ byte]. *)
Record Table := mkTable {
  params : Params;
  data : list Z      (* 256 entries *)
}.

(** One step of the shift register: shift left, and XOR the polynomial in
    when the bit shifted out was set. *)
Definition shift1 (poly crc : Z) : Z :=
  let bit := Z.testbit crc 7 in
  let crc' := u8 (Z.shiftl crc 1) in
  if bit then Z.lxor crc' poly else crc'.

Definition entry (poly n : Z) : Z :=
  Nat.iter 8 (shift1 poly) n.

(** Modelled from the spec: crc8.MakeTable, which fills the table from the
    polynomial alone. *)
Definition MakeTable (p : Params) : Table :=
  mkTable p (map (fun n => entry (Poly p) (Z.of_nat n)) (seq 0 256)).

Definition reverse8 (b : Z) : Z :=
  fold_left (fun acc i => if Z.testbit b (Z.of_nat i)
                          then Z.lor acc (Z.shiftl 1 (7 - Z.of_nat i))
                          else acc) (seq 0 8) 0.

Definition lookup (t : Table) (i : Z) : Z := nth (Z.to_nat i) (data t) 0.

(** Modelled from the spec: crc8.Update, one table look-up per byte, on the
    reflected byte when the input is reflected. *)
Definition Update (crc : Z) (d : list Z) (t : Table) : Z :=
  if RefIn (params t)
  then fold_left (fun crc b => lookup t (Z.lxor crc (reverse8 b))) d crc
  else fold_left (fun crc b => lookup t (Z.lxor crc b)) d crc.

(** Modelled from the spec: crc8.Complete, the reflection of the result and
    the final XOR. *)
Definition Complete (crc : Z) (t : Table) : Z :=
  if RefOut (params t)
  then Z.lxor (reverse8 crc) (XorOut (params t))
  else Z.lxor crc (XorOut (params t)).

(** Modelled from the spec: crc8.Checksum, the CRC-8 of [d] from the initial
    value of the parameters. *)
Definition Checksum (d : list Z) (t : Table) : Z :=
  Complete (Update (Init (params t)) d t) t.

End crc8.

(** ** Sequencing calls that may fail *)

(** A computation over a state [S] that ends in a value, an error value of
    type [E], or a panic; the state reached is kept in every case, as the
    effects of a Go function that returns an error are. *)
Definition M (S E A : Type) : Type := S -> res E A * S.

Definition ret {S E A} (a : A) : M S E A := fun s => (Ok a, s).
Definition fail {S E A} (e : E) : M S E A := fun s => (Err e, s).
Definition panic {S E A} : M S E A := fun s => (Panic, s).

Definition bind {S E A B} (m : M S E A) (k : A -> M S E B) : M S E B :=
  fun s =>
    match m s with
    | (Ok a, s1) => k a s1
    | (Err e, s1) => (Err e, s1)
    | (Panic, s1) => (Panic, s1)
    end.

Notation "x <- m ;; k" := (bind m (fun x => k))
  (at level 61, m at next level, right associativity).
Notation "m ;;; k" := (bind m (fun _ => k))
  (at level 61, right associativity).

(** [fmt.Errorf("...: %w", err)]: the error of [m] wrapped by [f]. *)
Definition wrapping {S E E' A} (f : E' -> E) (m : M S E' A) : M S E A :=
  fun s =>
    match m s with
    | (Ok a, s1) => (Ok a, s1)
    | (Err e, s1) => (Err (f e), s1)
    | (Panic, s1) => (Panic, s1)
    end.

(** A call whose error result is dropped by the caller. *)
Definition discard {S E E' A} (m : M S E' A) : M S E unit :=
  fun s =>
    match m s with
    | (Panic, s1) => (Panic, s1)
    | (_, s1) => (Ok tt, s1)
    end.

(** A call whose error the caller tests for and does not return:
    [if v, err := f(); err == nil { ... }]. *)
Definition attempt {S E E' A} (m : M S E' A) : M S E (option A) :=
  fun s =>
    match m s with
    | (Ok a, s1) => (Ok (Some a), s1)
    | (Err _, s1) => (Ok None, s1)
    | (Panic, s1) => (Panic, s1)
    end.

(** An index or slice expression: out of range is a panic. *)
Definition checked {S E A} (o : option A) : M S E A :=
  match o with
  | Some a => ret a
  | None => panic
  end.

(** An effect that cannot fail. *)
Definition effect {S E A} (f : S -> A * S) : M S E A :=
  fun s => let (a, s1) := f s in (Ok a, s1).

(** ** Package pmsa003i *)

Module pmsa003i.

Definition PMSA003I_ADDR : Z := 0x12.

Inductive error : Type :=
| ReadError (cause : bus_error)  (* Error while reading the sensor: %w *)
| BadStartWord                   (* Bad start word *)
| BadChecksum                    (* Bad checksum *)
| ErrorCode (code : Z).          (* Error code %x *)

(** [word] returns 16 bits from the byte stream, starting at index [i]; the
    index is an [int], and [i + 1] does not wrap around where [data[i]] is in
    range. *)
Definition word (data : list Z) (i : Z) : option Z :=
  match index data i, index data (i + 1) with
  | Some hi, Some lo => Some (u16 (u16 (Z.shiftl hi 8) + lo))
  | _, _ => None
  end.

Definition checksum (data : list Z) : option bool :=
  let cksum :=
    fold_left (fun cksum b => u16 (cksum + b))
              (firstn (length data - 2) data) 0 in
  match word data 0x1e with
  | Some w => Some (w =? cksum)
  | None => None
  end.

Record Results := mkResults {
  CfPm1 : Z;
  CfPm2_5 : Z;
  CfPm10 : Z;
  EnvPm1 : Z;
  EnvPm2_5 : Z;
  EnvPm10 : Z;
  Cnt0_3 : Z;
  Cnt0_5 : Z;
  Cnt1 : Z;
  Cnt2_5 : Z;
  Cnt5 : Z;
  Cnt10 : Z;
  Version : Z
}.

(** The handle holds the bus connection only, which lives in the [World]. *)
Inductive Dev : Type := mkDev.

Definition ReadSensor : M World error Results :=
  data <- wrapping ReadError (conn_Tx PMSA003I_ADDR [] 32) ;;
  start <- checked (word data 0) ;;
  if negb (start =? 0x424d) then fail BadStartWord else
  ck <- checked (checksum data) ;;
  if negb ck then fail BadChecksum else
  code <- checked (nth_error data 0x1d) ;;
  if negb (code =? 0x00) then fail (ErrorCode code) else
  w04 <- checked (word data 0x04) ;;
  w06 <- checked (word data 0x06) ;;
  w08 <- checked (word data 0x08) ;;
  w0a <- checked (word data 0x0a) ;;
  w0c <- checked (word data 0x0c) ;;
  w0e <- checked (word data 0x0e) ;;
  w10 <- checked (word data 0x10) ;;
  w12 <- checked (word data 0x12) ;;
  w14 <- checked (word data 0x14) ;;
  w16 <- checked (word data 0x16) ;;
  w18 <- checked (word data 0x18) ;;
  w1a <- checked (word data 0x1a) ;;
  ver <- checked (nth_error data 0x1c) ;;
  ret (mkResults w04 w06 w08 w0a w0c w0e w10 w12 w14 w16 w18 w1a ver).

Definition New : M World error Dev :=
  ReadSensor ;;; ret mkDev.

End pmsa003i.

(** ** Package sgp30 *)

Module sgp30.

Definition SGP30_ADDR : Z := 0x58.

Definition CRC8_SGP30 : crc8.Table :=
  crc8.MakeTable
    (crc8.mkParams 0x31 0xFF false false 0x00 0xA1 "CRC-8/SGP30"%string).

Definition checkCRC8 (data : list Z) : bool :=
  crc8.Checksum data CRC8_SGP30 =? 0x00.

(** The error values, one per message of the package; a CRC error names the
    word that failed and carries the three bytes it failed on. *)
Inductive error : Type :=
| SerialNumberTx (cause : bus_error)
    (* Error while reading serial number: %w *)
| SerialNumberCRC (word : nat) (on : list Z)
    (* serial number word N CRC8 failed on: %v *)
| FeaturesTx (cause : bus_error)
    (* Error while reading features: %w *)
| FeaturesCRC (on : list Z)
    (* features CRC8 failed on: %v *)
| StartTx (cause : bus_error)
    (* Error starting air quality measurements: %w *)
| AirQualityRequestTx (cause : bus_error)
    (* Error while requesting air quality: %w *)
| AirQualityReadTx (cause : bus_error)
    (* Error while reading air quality: %w *)
| AirQualityCRC (word : nat) (on : list Z)
    (* read air quality word N CRC8 failed on: %v *)
| AirQualityBaseline (cause : error)
    (* Error while reading baseline: %w, around the error of ReadBaseline *)
| BaselineTx (cause : bus_error)
    (* Error while reading baseline: %w *)
| BaselineCRC (word : nat) (on : list Z)
    (* baseline word N CRC8 failed on: %v *)
| SetBaselineCRC (word : nat) (on : list Z)
    (* set baseline word N CRC8 failed on: %v *)
| SetBaselineTx (cause : bus_error).
    (* Error while setting baseline: %w *)

(** The bus connection of the handle lives in the [World]; its [err] field
    is never used. *)
Record Dev := mkDev {
  baselineFile : string;  (* Path and filename for storing baseline values *)
  baselineInterval : Z;      (* How often to save the baseline data *)
  lastSave : Z               (* Last time baseline was saved *)
}.

Definition set_lastSave (d : Dev) (t : Z) : Dev :=
  mkDev (baselineFile d) (baselineInterval d) t.

(** [word] returns 16 bits from the byte stream, starting at index [i]; the
    index is an [int], and [i + 1] does not wrap around where [data[i]] is in
    range. *)
Definition word (data : list Z) (i : Z) : option Z :=
  match index data i, index data (i + 1) with
  | Some hi, Some lo => Some (u16 (u16 (Z.shiftl hi 8) + lo))
  | _, _ => None
  end.

(** [d.i2c.Tx(w, r)] with [len(r) = n]. *)
Definition Tx (wr : list Z) (n : nat) : M World bus_error (list Z) :=
  conn_Tx SGP30_ADDR wr n.

(** [GetSerialNumber] returns the 48 bit serial number of the device. *)
Definition GetSerialNumber : M World error Z :=
  data <- wrapping SerialNumberTx (Tx [0x36; 0x82] 9) ;;
  if negb (checkCRC8 (sub data 0 3))
  then fail (SerialNumberCRC 1 (sub data 0 3)) else
  if negb (checkCRC8 (sub data 3 6))
  then fail (SerialNumberCRC 2 (sub data 3 6)) else
  if negb (checkCRC8 (sub data 6 9))
  then fail (SerialNumberCRC 3 (sub data 6 9)) else
  w0 <- checked (word data 0) ;;
  w3 <- checked (word data 3) ;;
  w6 <- checked (word data 6) ;;
  ret (u64 (u64 (u64 (Z.shiftl w0 24) + u64 (Z.shiftl w3 16)) + w6)).

(** [GetFeatures] returns the 8 bit product type, and 8 bit product
    version. *)
Definition GetFeatures : M World error (Z * Z) :=
  data <- wrapping FeaturesTx (Tx [0x20; 0x2f] 3) ;;
  if negb (checkCRC8 (sub data 0 3))
  then fail (FeaturesCRC (sub data 0 3)) else
  b0 <- checked (nth_error data 0) ;;
  b1 <- checked (nth_error data 1) ;;
  ret (b0, b1).

(** [StartMeasurements] sends the Inlet Air Quality command to start
    measuring. *)
Definition StartMeasurements : M World error unit :=
  wrapping StartTx (Tx [0x20; 0x03] 0) ;;;
  ret tt.

(** [ReadBaseline] returns the 6 data bytes for the measurement baseline. *)
Definition ReadBaseline : M World error (list Z) :=
  data <- wrapping BaselineTx (Tx [0x20; 0x15] 6) ;;
  if negb (checkCRC8 (sub data 0 3))
  then fail (BaselineCRC 1 (sub data 0 3)) else
  if negb (checkCRC8 (sub data 3 6))
  then fail (BaselineCRC 2 (sub data 3 6)) else
  ret data.

(** [SetBaseline] sets the measurement baseline data bytes.  The data order
    for setting it is TVOC, CO2 even though the order when reading is CO2,
    TVOC. *)
Definition SetBaseline (baseline : slice) : M World error unit :=
  g1 <- checked (reslice baseline 0 3) ;;
  if negb (checkCRC8 g1) then fail (SetBaselineCRC 1 g1) else
  g2 <- checked (reslice baseline 3 6) ;;
  if negb (checkCRC8 g2) then fail (SetBaselineCRC 2 g2) else
  discard StartMeasurements ;;;
  t <- checked (reslice baseline 3 6) ;;
  c <- checked (reslice baseline 0 3) ;;
  let data := ([0x20; 0x1e] ++ t) ++ c in
  wrapping SetBaselineTx (Tx data 0) ;;;
  ret tt.

(** The receiver of [ReadAirQuality] is updated in place: the state is the
    handle together with the world. *)
Definition onWorld {A} (m : M World error A) : M (Dev * World) error A :=
  fun s => let (r, w1) := m (snd s) in (r, (fst s, w1)).
Definition getDev : M (Dev * World) error Dev :=
  fun s => (Ok (fst s), s).
Definition putDev (d : Dev) : M (Dev * World) error unit :=
  fun s => (Ok tt, (d, snd s)).

(** [ReadAirQuality] returns the CO2 and TVOC readings as 16 bit values.
    If a baselineFile was passed to [New] the baseline data will be saved to
    disk every baselineInterval. *)
Definition ReadAirQuality : M (Dev * World) error (Z * Z) :=
  onWorld (wrapping AirQualityRequestTx (Tx [0x20; 0x08] 0)) ;;;
  onWorld (effect (time_Sleep (10 * millisecond))) ;;;
  data <- onWorld (wrapping AirQualityReadTx (Tx [] 6)) ;;
  if negb (checkCRC8 (sub data 0 3))
  then fail (AirQualityCRC 1 (sub data 0 3)) else
  if negb (checkCRC8 (sub data 3 6))
  then fail (AirQualityCRC 2 (sub data 3 6)) else
  d <- getDev ;;
  due <- (if (0 <? String.length (baselineFile d))%nat
          then since <- onWorld (effect (time_Since (lastSave d))) ;;
               ret (baselineInterval d <=? since)
          else ret false) ;;
  (if due : bool
   then now <- onWorld (effect time_Now) ;;
        putDev (set_lastSave d now) ;;;
        baseline <- wrapping AirQualityBaseline (onWorld ReadBaseline) ;;
        onWorld (discard (ioutil_WriteFile (baselineFile d) baseline))
   else ret tt) ;;;
  co2 <- checked (word data 0) ;;
  tvoc <- checked (word data 3) ;;
  ret (co2, tvoc).

(** [New] returns a SGP30 device struct for communicating with the device.
    If baselineFile is passed the baseline calibration data will be read
    from the file at startup. *)
Definition New (baselineFile : string) (baselineInterval : Z)
  : M World error Dev :=
  let d := mkDev EmptyString 0 0 in
  GetSerialNumber ;;;
  if (0 <? String.length baselineFile)%nat
  then
    now <- effect time_Now ;;
    let d := mkDev baselineFile baselineInterval now in
    file <- attempt (ioutil_ReadFile baselineFile) ;;
    match file with
    | Some baseline => SetBaseline baseline ;;; ret d
    | None => ret d
    end
  else ret d.

End sgp30.

(** ** Vocabulary of the properties *)

(** The big-endian 16-bit word at offset [i]. *)
Definition be16 (data : list Z) (i : nat) : Z :=
  256 * nth i data 0 + nth (i + 1) data 0.

(** The sum of bytes 0..29 of a frame, reduced to 16 bits, against the word
    at offset 30: the checksum rule in the words of the data sheet. *)
Definition frame_sum (frame : list Z) : Z :=
  fold_right Z.add 0 (firstn 30 frame) mod 2 ^ 16.
Definition checksum_rule (frame : list Z) : bool :=
  frame_sum frame =? be16 frame 30.

(** The measurement a valid frame stands for. *)
Definition decode (frame : list Z) : pmsa003i.Results :=
  pmsa003i.mkResults
    (be16 frame 4) (be16 frame 6) (be16 frame 8)
    (be16 frame 10) (be16 frame 12) (be16 frame 14)
    (be16 frame 16) (be16 frame 18) (be16 frame 20)
    (be16 frame 22) (be16 frame 24) (be16 frame 26)
    (nth 28 frame 0).

(** The [k]-th 3-byte group of a reply, counted from 0, and the first [n]
    groups. *)
Definition group (data : list Z) (k : nat) : list Z :=
  sub data (3 * k) (3 * k + 3).
Definition groups (n : nat) (data : list Z) : list (list Z) :=
  map (group data) (seq 0 n).

(** The first group that fails CRC-8, with its number counted from [k]. *)
Fixpoint first_bad (k : nat) (gs : list (list Z)) : option (nat * list Z) :=
  match gs with
  | [] => None
  | g :: gs' => if sgp30.checkCRC8 g then first_bad (S k) gs' else Some (k, g)
  end.

Definition all_valid (gs : list (list Z)) : bool := forallb sgp30.checkCRC8 gs.

(** The baseline with its two groups exchanged, and the bytes of the
    Set-Baseline command for it. *)
Definition swap_groups (b : list Z) : list Z := sub b 3 6 ++ sub b 0 3.
Definition baseline_frame (b : list Z) : list Z :=
  [0x20; 0x1e] ++ swap_groups b.

(** The events between two states of the world. *)
Definition events_since (w w' : World) : list event :=
  skipn (length (log w)) (log w').

Definition is_file_write (e : event) : bool :=
  match e with
  | EvWriteFile _ _ => true
  | _ => false
  end.
Definition count (p : event -> bool) (evs : list event) : nat :=
  length (filter p evs).

(** Whether the autosave of [ReadAirQuality] is due for handle [d] when the
    clock is read in world [w]. *)
Definition elapsed (d : sgp30.Dev) (w : World) : Z :=
  clock w (ticks w) - sgp30.lastSave d.
Definition autosave_due (d : sgp30.Dev) (w : World) : bool :=
  (0 <? String.length (sgp30.baselineFile d))%nat &&
  (sgp30.baselineInterval d <=? elapsed d w).

(** The bytes of a string, as ASCII. *)
Definition ascii_bytes (s : string) : list Z :=
  map (fun c => Z.of_N (Ascii.N_of_ascii c)) (list_ascii_of_string s).

(** The check value of a parameter set: the checksum of the ASCII bytes of
    123456789. *)
Definition check_value (p : crc8.Params) : Z :=
  crc8.Checksum (ascii_bytes "123456789") (crc8.MakeTable p).

(** The three events of the air-quality exchange, and whether the reply to a
    following Read-Baseline exchange is there and valid. *)
Definition aq_events : list event :=
  [EvTx sgp30.SGP30_ADDR [0x20; 0x08] 0; EvSleep (10 * millisecond);
   EvTx sgp30.SGP30_ADDR [] 6].
Definition baseline_read_event : event := EvTx sgp30.SGP30_ADDR [0x20; 0x15] 6.
Definition baseline_readable (rest : list (option (list Z))) : bool :=
  match rest with
  | Some b :: _ => all_valid (groups 2 (fill 6 b))
  | _ => false
  end.

(** The table of a CRC-8 without zero divisors: 256 bytes, of which only the
    first is zero. *)
Definition table_ok (t : crc8.Table) : bool :=
  (length (crc8.data t) =? 256)%nat &&
  forallb is_byteb (crc8.data t) &&
  forallb (fun k => negb (nth k (crc8.data t) 0 =? 0)) (seq 1 255) &&
  (nth 0 (crc8.data t) 0 =? 0).

(** ** Data of the packages' tests *)

Definition GoodSensorData : list Z :=
  [0x42; 0x4d; 0x00; 0x1c; 0x00; 0x00; 0x00; 0x01;
   0x00; 0x05; 0x00; 0x00; 0x00; 0x01; 0x00; 0x05;
   0x00; 0x7e; 0x00; 0x2a; 0x00; 0x0f; 0x00; 0x09;
   0x00; 0x03; 0x00; 0x03; 0x97; 0x00; 0x02; 0x14].
Definition BadChecksumSensorData : list Z := [0x42; 0x4d] ++ repeat 0 30.

Definition BadSerialNumber : list Z := repeat 0 9.
Definition GoodSerialNumber : list Z :=
  [0x00; 0x00; 0x81; 0x01; 0x57; 0x9C; 0xAC; 0xA2; 0x54].
Definition BadBaselineData : list Z := repeat 0 6.
Definition GoodBaselineData : list Z := [0x88; 0xa1; 0x58; 0x8d; 0xc4; 0x61].
Definition GoodFeaturesData : list Z := [0x00; 0x22; 0x65].
Definition GoodAirQualityData : list Z := [0x01; 0x9e; 0x53; 0x00; 0x0d; 0xcd].

(** A world for the examples: the bus answers with [script], the clock
    reads [t0], [t0 + 1], ..., and [files] are the files that exist. *)
Definition playback (script : list (option (list Z))) (t0 : Z)
           (files : string -> option (list Z)) : World :=
  mkWorld script (fun k => t0 + Z.of_nat k) 0 files (fun _ => None) [] [].
Definition no_files : string -> option (list Z) := fun _ => None.
Definition one_file (path : string) (contents : list Z)
  : string -> option (list Z) :=
  fs_put no_files path contents.

(** ** Worlds and handles of the examples *)

(** A handle that saves the baseline to a file every 30 seconds and has not
    saved yet. *)
Definition saving_handle : sgp30.Dev :=
  sgp30.mkDev "baseline" (30 * second) 0.

(** The particle sensor delivers the good frame. *)
Definition world_good_frame : World :=
  playback [Some GoodSensorData] 0 no_files.

(** A serial-number reply with valid groups whose first word is not zero. *)
Definition serial_reply_0157 : list Z :=
  [0x01; 0x57; 0x9C; 0x00; 0x00; 0x81; 0xAC; 0xA2; 0x54].
Definition world_serial_0157 : World :=
  playback [Some serial_reply_0157] 0 no_files.

(** The air-quality exchange succeeds at 60 s; the exchange after it fails
    on the bus, delivers a baseline of zero bytes, or, at exactly 30 s,
    delivers a good baseline. *)
Definition world_baseline_fails : World :=
  playback [Some []; Some GoodAirQualityData; None] (60 * second) no_files.
Definition world_baseline_invalid : World :=
  playback [Some []; Some GoodAirQualityData; Some BadBaselineData]
           (60 * second) no_files.
Definition world_autosave_boundary : World :=
  playback [Some []; Some GoodAirQualityData; Some GoodBaselineData]
           (30 * second) no_files.

(** The bus acknowledges two writes; the bus fails the first exchange and
    acknowledges the second. *)
Definition world_two_acks : World := playback [Some []; Some []] 0 no_files.
Definition world_start_fails : World := playback [None; Some []] 0 no_files.

Definition short_file : list Z := [0x88; 0xa1; 0x58; 0x8d; 0xc4].
Definition restoring_bus : list (option (list Z)) :=
  [Some GoodSerialNumber; Some []; Some []].
Definition world_with_file (contents spare : list Z) : World :=
  mkWorld restoring_bus (fun k => Z.of_nat k) 0
          (one_file "baseline" contents) (fun _ => None) spare [].

(** A frame cut short by one byte, and a buffer that goes on for two bytes
    after a good frame. *)
Definition short_frame : list Z := firstn 31 GoodSensorData.
Definition long_frame : list Z := GoodSensorData ++ [0x00; 0x00].

Definition flipped_frame : list Z :=
  firstn 7 GoodSensorData ++ [0x02] ++ skipn 8 GoodSensorData.

(** What a call leaves of the world when all it does is talk on the bus:
    the clock and the files are as before. *)
Definition same_clock_and_files (w w' : World) : Prop :=
  clock w' = clock w /\ ticks w' = ticks w /\ fs w' = fs w.

(** The values of a measurement fit their fields. *)
Definition results_in_range (r : pmsa003i.Results) : Prop :=
  Forall (fun v => 0 <= v < 2 ^ 16)
         [pmsa003i.CfPm1 r; pmsa003i.CfPm2_5 r; pmsa003i.CfPm10 r;
          pmsa003i.EnvPm1 r; pmsa003i.EnvPm2_5 r; pmsa003i.EnvPm10 r;
          pmsa003i.Cnt0_3 r; pmsa003i.Cnt0_5 r; pmsa003i.Cnt1 r;
          pmsa003i.Cnt2_5 r; pmsa003i.Cnt5 r; pmsa003i.Cnt10 r] /\
  0 <= pmsa003i.Version r < 2 ^ 8.

(** No two elements of the list are equal. *)
Fixpoint distinct (l : list Z) : bool :=
  match l with
  | [] => true
  | x :: rest => negb (existsb (Z.eqb x) rest) && distinct rest
  end.

(** A call of the gas-sensor package that is one exchange on the bus:
    command [cmd], [n] bytes read, failure of the transport returned inside
    [tx_error]. *)
Definition single_exchange {A : Type} (op : M World sgp30.error A)
           (cmd : list Z) (n : nat) (tx_error : bus_error -> sgp30.error)
           (w : World) : Prop :=
  fst (op w) <> Panic /\
  events_since w (snd (op w)) = [EvTx 0x58 cmd n] /\
  bus (snd (op w)) = tl (bus w) /\
  same_clock_and_files w (snd (op w)) /\
  match bus w with
  | Some _ :: _ => True
  | _ => fst (op w) = Err (tx_error TransportFailure)
  end.


(** The world [w] with other faults of writing. *)
Definition with_faults (w : World) (ft : string -> option write_fault)
  : World :=
  mkWorld (bus w) (clock w) (ticks w) (fs w) ft (slack w) (log w).

(** The autosave is due and the baseline is read, but every write breaks
    after four bytes. *)
Definition world_write_breaks : World :=
  with_faults world_autosave_boundary (fun _ => Some (WriteFails 4)).

(** The air-quality exchange succeeds ten seconds after the start of the
    clock, before the interval of [saving_handle] has passed. *)
Definition world_before_interval : World :=
  playback [Some []; Some GoodAirQualityData] (10 * second) no_files.

(** ** Tactics *)

(** Splits a list of known length into its elements. *)
Ltac explode l H :=
  repeat (destruct l as [|? l]; [discriminate H|]);
  destruct l; [clear H | discriminate H].

Ltac split_bytes :=
  repeat match goal with
         | H : bytes (_ :: _) |- _ => unfold bytes in H
         | H : Forall _ (_ :: _) |- _ =>
             let a := fresh "Hb" in
             let b := fresh "Hbs" in
             apply Forall_cons_iff in H; destruct H as [a b];
             unfold is_byte in a
         | H : Forall _ [] |- _ => clear H
         end.

(** The constant offsets of the drivers, as indices of a list. *)
Ltac offsets :=
  repeat match goal with
         | |- context [Z.to_nat 0] => change (Z.to_nat 0) with 0%nat
         | |- context [Z.to_nat (Z.pos ?p)] =>
             let n := eval vm_compute in (Pos.to_nat p) in
             change (Z.to_nat (Z.pos p)) with n
         | H : context [Z.to_nat 0] |- _ =>
             change (Z.to_nat 0) with 0%nat in H
         | H : context [Z.to_nat (Z.pos ?p)] |- _ =>
             let n := eval vm_compute in (Pos.to_nat p) in
             change (Z.to_nat (Z.pos p)) with n in H
         end.

(** Unfolds the sequencing of a driver function, and the primitives of the
    world on a world given by its fields. *)
Ltac run_sgp30 :=
  cbv [sgp30.GetSerialNumber sgp30.GetFeatures sgp30.ReadBaseline
       sgp30.StartMeasurements sgp30.SetBaseline sgp30.ReadAirQuality
       sgp30.New sgp30.Tx sgp30.onWorld sgp30.getDev sgp30.putDev
       bind wrapping checked discard attempt effect ret fail panic].

Ltac run_sgp30_in H :=
  cbv [sgp30.GetSerialNumber sgp30.GetFeatures sgp30.ReadBaseline
       sgp30.StartMeasurements sgp30.SetBaseline sgp30.ReadAirQuality
       sgp30.New sgp30.Tx sgp30.onWorld sgp30.getDev sgp30.putDev
       bind wrapping checked discard attempt effect ret fail panic] in H.

Ltac run_world :=
  cbv [conn_Tx time_Sleep time_Since time_Now ioutil_WriteFile ioutil_ReadFile
       emit with_bus with_ticks with_fs
       bus clock ticks fs faults slack log fst snd
       sgp30.set_lastSave sgp30.baselineFile sgp30.baselineInterval
       sgp30.lastSave].

Ltac run_world_in H :=
  cbv [conn_Tx time_Sleep time_Since time_Now ioutil_WriteFile ioutil_ReadFile
       emit with_bus with_ticks with_fs
       bus clock ticks fs faults slack log fst snd
       sgp30.set_lastSave sgp30.baselineFile sgp30.baselineInterval
       sgp30.lastSave] in H.

Ltac world_goal :=
  unfold autosave_due, elapsed;
  cbn [bus clock ticks fs faults slack log
       sgp30.set_lastSave sgp30.baselineFile sgp30.baselineInterval
       sgp30.lastSave all_valid forallb andb negb fst snd].

(** Frames that agree everywhere but at one index, where they differ. *)
Ltac agree_at H j :=
  let E := fresh "E" in
  try (assert (E := H j ltac:(lia)); cbn [nth] in E).

Ltac agree_everywhere H :=
  agree_at H 0%nat; agree_at H 1%nat; agree_at H 2%nat; agree_at H 3%nat;
  agree_at H 4%nat; agree_at H 5%nat; agree_at H 6%nat; agree_at H 7%nat;
  agree_at H 8%nat; agree_at H 9%nat; agree_at H 10%nat; agree_at H 11%nat;
  agree_at H 12%nat; agree_at H 13%nat; agree_at H 14%nat; agree_at H 15%nat;
  agree_at H 16%nat; agree_at H 17%nat; agree_at H 18%nat; agree_at H 19%nat;
  agree_at H 20%nat; agree_at H 21%nat; agree_at H 22%nat; agree_at H 23%nat;
  agree_at H 24%nat; agree_at H 25%nat; agree_at H 26%nat; agree_at H 27%nat;
  agree_at H 28%nat; agree_at H 29%nat; agree_at H 30%nat; agree_at H 31%nat.

(** * Properties *)

Arguments sgp30.checkCRC8 : simpl never.
Arguments sub : simpl never.
Arguments fill : simpl never.

(** ** Bytes, words and buffers *)

Lemma bytes_iff (l : list Z) : bytes l <-> bytesb l = true.
Proof.
  unfold bytes, bytesb. rewrite forallb_forall, Forall_forall.
  unfold is_byte, is_byteb. split; intros H b Hb; specialize (H b Hb); lia.
Qed.

Lemma fill_exact (n : nat) (r : list Z) : length r = n -> fill n r = r.
Proof.
  intros <-. unfold fill. rewrite firstn_app, firstn_all, Nat.sub_diag.
  cbn. apply app_nil_r.
Qed.

Lemma fill_length (n : nat) (r : list Z) : length (fill n r) = n.
Proof.
  unfold fill. rewrite length_firstn, length_app, repeat_length. lia.
Qed.

Lemma u16_small (x : Z) : 0 <= x < 65536 -> u16 x = x.
Proof. intros H. unfold u16. apply Z.mod_small. lia. Qed.

Lemma nth_error_in (data : list Z) (i : nat) :
  (i < length data)%nat -> nth_error data i = Some (nth i data 0).
Proof. intros H. apply nth_error_nth'. exact H. Qed.

Lemma bytes_nth (data : list Z) (i : nat) :
  bytes data -> 0 <= nth i data 0 < 256.
Proof.
  intros H. destruct (Nat.lt_ge_cases i (length data)) as [Hi | Hi].
  - unfold bytes in H. rewrite Forall_forall in H. apply H, nth_In, Hi.
  - rewrite nth_overflow by exact Hi. lia.
Qed.

Lemma be16_range (data : list Z) (i : nat) :
  bytes data -> 0 <= be16 data i < 65536.
Proof.
  intros H. unfold be16.
  pose proof (bytes_nth data i H). pose proof (bytes_nth data (i + 1) H). lia.
Qed.

(** An index within the length. *)
Lemma index_in (a : list Z) (i : Z) :
  0 <= i < Z.of_nat (length a) ->
  index a i = Some (nth (Z.to_nat i) a 0).
Proof.
  intros Hi. unfold index.
  destruct (i <? 0) eqn:Hneg; [apply Z.ltb_lt in Hneg; lia|].
  apply nth_error_in. lia.
Qed.

(** [word] reads the big-endian word: [(b[i] << 8) | b[i+1]]. *)
Lemma pmsa_word_be16 (data : list Z) (i : Z) :
  bytes data -> 0 <= i < Z.of_nat (length data) - 1 ->
  pmsa003i.word data i = Some (be16 data (Z.to_nat i)).
Proof.
  intros Hb Hi. unfold pmsa003i.word.
  rewrite !index_in by lia.
  replace (Z.to_nat (i + 1)) with (Z.to_nat i + 1)%nat by lia.
  pose proof (bytes_nth data (Z.to_nat i) Hb).
  pose proof (bytes_nth data (Z.to_nat i + 1) Hb).
  rewrite Z.shiftl_mul_pow2 by lia. change (2 ^ 8) with 256.
  rewrite (u16_small (_ * 256)) by lia. rewrite u16_small by lia.
  unfold be16. f_equal. lia.
Qed.

Lemma sgp30_word_be16 (data : list Z) (i : Z) :
  bytes data -> 0 <= i < Z.of_nat (length data) - 1 ->
  sgp30.word data i = Some (be16 data (Z.to_nat i)).
Proof. exact (pmsa_word_be16 data i). Qed.

Lemma be16_lor (data : list Z) (i : nat) :
  bytes data ->
  be16 data i = Z.lor (Z.shiftl (nth i data 0) 8) (nth (i + 1) data 0).
Proof.
  intros Hb. unfold be16.
  pose proof (bytes_nth data i Hb) as Hh.
  pose proof (bytes_nth data (i + 1) Hb) as Hl.
  rewrite Z.shiftl_mul_pow2 by lia.
  assert (Hland : Z.land (nth i data 0 * 2 ^ 8) (nth (i + 1) data 0) = 0).
  { apply Z.bits_inj'. intros n Hn. rewrite Z.land_spec, Z.bits_0.
    destruct (Z.lt_ge_cases n 8).
    - rewrite Z.mul_pow2_bits_low by lia. reflexivity.
    - replace (Z.testbit (nth (i + 1) data 0) n) with false.
      + apply andb_false_r.
      + symmetry.
        destruct (Z.eq_dec (nth (i + 1) data 0) 0) as [-> | Hne];
          [apply Z.bits_0|].
        apply Z.bits_above_log2; [lia|].
        apply Z.log2_lt_pow2; [lia|].
        apply Z.lt_le_trans with (2 ^ 8); [change (2 ^ 8) with 256; lia|].
        apply Z.pow_le_mono_r; lia. }
  rewrite <- Z.lxor_lor by exact Hland.
  rewrite <- Z.add_nocarry_lxor by exact Hland.
  change (2 ^ 8) with 256. lia.
Qed.

(** ** The bus *)

Lemma conn_Tx_reply (addr : Z) (wr : list Z) (n : nat) (w : World)
      (r : list Z) (rest : list (option (list Z))) :
  bus w = Some r :: rest ->
  conn_Tx addr wr n w
  = (Ok (fill n r), with_bus (emit w (EvTx addr wr n)) rest).
Proof. intros H. unfold conn_Tx. rewrite H. reflexivity. Qed.

Lemma conn_Tx_failure (addr : Z) (wr : list Z) (n : nat) (w : World)
      (rest : list (option (list Z))) :
  bus w = None :: rest ->
  conn_Tx addr wr n w
  = (Err TransportFailure, with_bus (emit w (EvTx addr wr n)) rest).
Proof. intros H. unfold conn_Tx. rewrite H. reflexivity. Qed.

Lemma conn_Tx_silent (addr : Z) (wr : list Z) (n : nat) (w : World) :
  bus w = [] ->
  conn_Tx addr wr n w = (Err TransportFailure, emit w (EvTx addr wr n)).
Proof. intros H. unfold conn_Tx. rewrite H. reflexivity. Qed.

(** Every exchange is logged, whatever its outcome. *)
Lemma conn_Tx_log (addr : Z) (wr : list Z) (n : nat) (w : World) :
  log (snd (conn_Tx addr wr n w)) = log w ++ [EvTx addr wr n].
Proof. unfold conn_Tx. destruct (bus w) as [|[r|] rest]; reflexivity. Qed.

(** ** The arithmetic checksum of the particle sensor *)

Lemma sum16_fold (l : list Z) (a : Z) :
  fold_left (fun cksum b => u16 (cksum + b)) l (u16 a)
  = u16 (a + fold_right Z.add 0 l).
Proof.
  revert a. induction l as [|b l IH]; intros a; cbn [fold_left fold_right].
  - f_equal. lia.
  - replace (u16 (u16 a + b)) with (u16 (a + b))
      by (unfold u16; rewrite Zplus_mod_idemp_l; reflexivity).
    rewrite IH. f_equal. lia.
Qed.

Lemma frame_sum_no_wrap (frame : list Z) :
  length frame = 32%nat -> bytes frame ->
  frame_sum frame = fold_right Z.add 0 (firstn 30 frame) /\
  nth 0 frame 0 + nth 1 frame 0 <= frame_sum frame <= 7650.
Proof.
  intros Hlen Hb. explode frame Hlen. split_bytes.
  unfold frame_sum. cbn [firstn fold_right nth].
  rewrite Z.mod_small by lia. lia.
Qed.

Section ParticleFrame.

(** A frame of 32 bytes, as one exchange with the particle sensor reads
    it. *)
Variable frame : list Z.
Hypothesis frame_length : length frame = 32%nat.
Hypothesis frame_bytes : bytes frame.

Lemma frame_word (i : Z) :
  0 <= i < 31 -> pmsa003i.word frame i = Some (be16 frame (Z.to_nat i)).
Proof.
  intros Hi. apply pmsa_word_be16; [exact frame_bytes|].
  rewrite frame_length. cbn. lia.
Qed.

Lemma frame_byte (i : nat) :
  (i < 32)%nat -> nth_error frame i = Some (nth i frame 0).
Proof. intros Hi. apply nth_error_in. rewrite frame_length. exact Hi. Qed.

Lemma checksum_is_rule :
  pmsa003i.checksum frame = Some (checksum_rule frame).
Proof.
  unfold pmsa003i.checksum.
  rewrite frame_word by (cbn; lia).
  rewrite frame_length. change (32 - 2)%nat with 30%nat.
  change 0 with (u16 0) at 1. rewrite sum16_fold.
  unfold checksum_rule, frame_sum, u16. change (2 ^ 16) with 65536.
  rewrite Z.add_0_l. f_equal. apply Z.eqb_sym.
Qed.

(** C7.  For every 32-byte frame, [checksum] adds bytes 0..29 in 16 bits
    with wrap-around and passes exactly when that sum is the big-endian word
    at offset 30; a frame that starts 0x42 0x4D and carries a zero checksum
    word is therefore rejected. *)
Theorem checksum_sums_bytes_0_to_29 :
  pmsa003i.checksum frame
  = Some (fold_right Z.add 0 (firstn 30 frame) mod 2 ^ 16 =? be16 frame 30) /\
  (pmsa003i.checksum frame = Some true <-> frame_sum frame = be16 frame 30) /\
  (nth 0 frame 0 = 0x42 -> nth 1 frame 0 = 0x4D -> be16 frame 30 = 0 ->
   pmsa003i.checksum frame = Some false).
Proof.
  rewrite checksum_is_rule.
  unfold checksum_rule. split; [reflexivity|]. split.
  - split.
    + intros H. injection H as H. apply Z.eqb_eq. exact H.
    + intros H. f_equal. apply Z.eqb_eq. exact H.
  - intros H0 H1 Hck. f_equal. apply Z.eqb_neq.
    destruct (frame_sum_no_wrap frame frame_length frame_bytes) as [_ Hsum].
    lia.
Qed.

(** ** Reading the particle sensor *)

Variable w : World.
Variable rest : list (option (list Z)).
Hypothesis delivered : bus w = Some frame :: rest.

(** What [ReadSensor] returns for the frame the bus delivers. *)
Lemma ReadSensor_frame :
  fst (pmsa003i.ReadSensor w)
  = if negb (be16 frame 0 =? 0x424d) then Err pmsa003i.BadStartWord
    else if negb (checksum_rule frame) then Err pmsa003i.BadChecksum
    else if negb (nth 29 frame 0 =? 0)
         then Err (pmsa003i.ErrorCode (nth 29 frame 0))
         else Ok (decode frame).
Proof.
  cbv [pmsa003i.ReadSensor bind wrapping checked ret fail panic].
  rewrite (conn_Tx_reply _ _ _ _ _ _ delivered), (fill_exact _ _ frame_length).
  rewrite checksum_is_rule.
  rewrite !frame_word by (cbn; lia).
  rewrite !frame_byte by (cbn; lia).
  offsets. cbv beta iota.
  destruct (be16 frame 0 =? 0x424d); cbn [negb]; [|reflexivity].
  destruct (checksum_rule frame); cbn [negb]; [|reflexivity].
  change (Pos.to_nat 29) with 29%nat.
  destruct (nth 29 frame 0 =? 0); cbn [negb]; reflexivity.
Qed.

(** C4.  For a 32-byte frame the bus delivered, [ReadSensor] returns an
    error exactly when the start word is not 0x424D, or the checksum fails
    (the 16-bit sum of bytes 0..29 is not the word at offset 30), or the
    error byte at offset 29 is not zero; otherwise it returns the
    values decoded at the fixed offsets.  The frame of the package's tests
    decodes to (0,1,5), (0,1,5), (126,42,15,9,3,3), version 151. *)
Theorem ReadSensor_validates_then_decodes :
  (is_err (fst (pmsa003i.ReadSensor w)) = true <->
   be16 frame 0 <> 0x424D \/
   frame_sum frame <> be16 frame 30 \/
   nth 29 frame 0 <> 0) /\
  (is_err (fst (pmsa003i.ReadSensor w)) = false ->
   fst (pmsa003i.ReadSensor w)
   = Ok (pmsa003i.mkResults
           (be16 frame 4) (be16 frame 6) (be16 frame 8)
           (be16 frame 10) (be16 frame 12) (be16 frame 14)
           (be16 frame 16) (be16 frame 18) (be16 frame 20)
           (be16 frame 22) (be16 frame 24) (be16 frame 26)
           (nth 28 frame 0))) /\
  (frame = GoodSensorData ->
   fst (pmsa003i.ReadSensor w)
   = Ok (pmsa003i.mkResults 0 1 5 0 1 5 126 42 15 9 3 3 151)).
Proof.
  rewrite ReadSensor_frame.
  split; [|split].
  - destruct (be16 frame 0 =? 0x424d) eqn:Hs; cbn [negb is_err].
    2:{ apply Z.eqb_neq in Hs. tauto. }
    apply Z.eqb_eq in Hs.
    destruct (checksum_rule frame) eqn:Hc; cbn [negb is_err];
      unfold checksum_rule in Hc.
    2:{ apply Z.eqb_neq in Hc. tauto. }
    apply Z.eqb_eq in Hc.
    destruct (nth 29 frame 0 =? 0) eqn:He; cbn [negb is_err].
    2:{ apply Z.eqb_neq in He. tauto. }
    apply Z.eqb_eq in He.
    split; [discriminate|].
    intros [H | [H | H]]; contradiction.
  - destruct (be16 frame 0 =? 0x424d); cbn [negb is_err];
      [|discriminate].
    destruct (checksum_rule frame); cbn [negb is_err]; [|discriminate].
    destruct (nth 29 frame 0 =? 0); cbn [negb is_err]; [|discriminate].
    reflexivity.
  - intros ->. vm_compute. reflexivity.
Qed.

End ParticleFrame.

Lemma checksum_sums_bytes_0_to_29_witness :
  length BadChecksumSensorData = 32%nat /\ bytes BadChecksumSensorData /\
  pmsa003i.checksum BadChecksumSensorData = Some false.
Proof.
  assert (Hlen : length BadChecksumSensorData = 32%nat) by reflexivity.
  assert (Hb : bytes BadChecksumSensorData)
    by (apply bytes_iff; vm_compute; reflexivity).
  split; [exact Hlen|]. split; [exact Hb|].
  apply (checksum_sums_bytes_0_to_29 BadChecksumSensorData Hlen Hb);
    reflexivity.
Defined.

Lemma ReadSensor_validates_then_decodes_witness :
  bus world_good_frame = [Some GoodSensorData] /\
  length GoodSensorData = 32%nat /\
  bytes GoodSensorData /\
  fst (pmsa003i.ReadSensor world_good_frame)
  = Ok (pmsa003i.mkResults 0 1 5 0 1 5 126 42 15 9 3 3 151).
Proof.
  assert (Hbus : bus world_good_frame = [Some GoodSensorData])
    by reflexivity.
  assert (Hlen : length GoodSensorData = 32%nat) by reflexivity.
  assert (Hb : bytes GoodSensorData)
    by (apply bytes_iff; vm_compute; reflexivity).
  split; [exact Hbus|]. split; [exact Hlen|]. split; [exact Hb|].
  apply (ReadSensor_validates_then_decodes
           GoodSensorData Hlen Hb world_good_frame [] Hbus).
  reflexivity.
Defined.

(** ** CRC-8 of the gas sensor *)

(** The vectors of the package's tests: the model of the CRC accepts the
    replies the tests call good and rejects the ones they call bad. *)
Lemma test_vectors_CRC8 :
  all_valid (groups 3 GoodSerialNumber) = true /\
  all_valid (groups 2 GoodBaselineData) = true /\
  all_valid (groups 1 GoodFeaturesData) = true /\
  all_valid (groups 2 GoodAirQualityData) = true /\
  first_bad 1 (groups 3 BadSerialNumber) = Some (1%nat, [0; 0; 0]) /\
  first_bad 1 (groups 2 BadBaselineData) = Some (1%nat, [0; 0; 0]).
Proof. vm_compute. repeat split. Qed.

Lemma lxor_byte (a b : Z) : is_byte a -> is_byte b -> is_byte (Z.lxor a b).
Proof.
  unfold is_byte. intros Ha Hb.
  assert (H0 : 0 <= Z.lxor a b) by (apply Z.lxor_nonneg; lia).
  split; [exact H0|].
  destruct (Z.eq_dec (Z.lxor a b) 0) as [-> | Hne]; [lia|].
  change 256 with (2 ^ 8). apply Z.log2_lt_pow2; [lia|].
  apply Z.le_lt_trans with (Z.max (Z.log2 a) (Z.log2 b));
    [apply Z.log2_lxor; lia|].
  assert (Hl : forall x, 0 <= x < 256 -> Z.log2 x < 8).
  { intros x Hx. destruct (Z.eq_dec x 0) as [-> | Hx0]; [cbn; lia|].
    apply Z.log2_lt_pow2; [lia|]. change (2 ^ 8) with 256. lia. }
  pose proof (Hl a Ha). pose proof (Hl b Hb). lia.
Qed.

Lemma CRC8_SGP30_table_ok : table_ok sgp30.CRC8_SGP30 = true.
Proof. vm_compute. reflexivity. Qed.

Lemma lookup_byte (i : Z) : is_byte (crc8.lookup sgp30.CRC8_SGP30 i).
Proof.
  pose proof CRC8_SGP30_table_ok as H. unfold table_ok in H.
  apply andb_prop in H as [H _]. apply andb_prop in H as [H _].
  apply andb_prop in H as [_ H].
  unfold crc8.lookup.
  destruct (nth_in_or_default (Z.to_nat i)
              (crc8.data sgp30.CRC8_SGP30) 0) as [Hin | ->].
  - rewrite forallb_forall in H. specialize (H _ Hin).
    unfold is_byteb in H. unfold is_byte. lia.
  - unfold is_byte. lia.
Qed.

(** The table sends no byte but zero to zero. *)
Lemma lookup_zero (i : Z) :
  is_byte i -> (crc8.lookup sgp30.CRC8_SGP30 i = 0 <-> i = 0).
Proof.
  intros Hi. unfold is_byte in Hi.
  pose proof CRC8_SGP30_table_ok as H. unfold table_ok in H.
  apply andb_prop in H as [H H0]. apply andb_prop in H as [_ Hnz].
  apply Z.eqb_eq in H0. unfold crc8.lookup. split.
  - intros Hl. destruct (Z.eq_dec i 0) as [|Hne]; [assumption|].
    rewrite forallb_forall in Hnz.
    specialize (Hnz (Z.to_nat i)).
    rewrite in_seq in Hnz. rewrite Hl in Hnz.
    discriminate Hnz. lia.
  - intros ->. exact H0.
Qed.

Lemma Checksum_snoc (d : list Z) (c : Z) :
  crc8.Checksum (d ++ [c]) sgp30.CRC8_SGP30
  = crc8.lookup sgp30.CRC8_SGP30
      (Z.lxor (crc8.Checksum d sgp30.CRC8_SGP30) c).
Proof.
  unfold crc8.Checksum, crc8.Complete, crc8.Update.
  change (crc8.RefIn (crc8.params sgp30.CRC8_SGP30)) with false.
  change (crc8.RefOut (crc8.params sgp30.CRC8_SGP30)) with false.
  change (crc8.XorOut (crc8.params sgp30.CRC8_SGP30)) with 0.
  cbv beta iota. rewrite fold_left_app. cbn [fold_left].
  rewrite !Z.lxor_0_r. reflexivity.
Qed.

Lemma Checksum_byte (d : list Z) :
  d <> [] -> is_byte (crc8.Checksum d sgp30.CRC8_SGP30).
Proof.
  intros Hd. destruct (exists_last Hd) as [d' [c ->]].
  rewrite Checksum_snoc. apply lookup_byte.
Qed.

(** A group passes exactly when its third byte is the CRC-8 of the two data
    bytes before it. *)
Lemma group_valid_iff_check_byte (hi lo crc : Z) :
  is_byte crc ->
  (sgp30.checkCRC8 [hi; lo; crc] = true <->
   crc = crc8.Checksum [hi; lo] sgp30.CRC8_SGP30).
Proof.
  intros Hc. unfold sgp30.checkCRC8.
  change [hi; lo; crc] with ([hi; lo] ++ [crc]). rewrite Checksum_snoc.
  rewrite Z.eqb_eq.
  assert (Hd : is_byte (crc8.Checksum [hi; lo] sgp30.CRC8_SGP30))
    by (apply Checksum_byte; discriminate).
  rewrite lookup_zero by (apply lxor_byte; assumption).
  rewrite Z.lxor_eq_0_iff. split; congruence.
Qed.

(** The model of package crc8 gives the published check values of the
    parameter sets the package itself lists.  0xA1 is the check value of
    polynomial 0x31 with initial value 0 and both reflections; with initial
    value 0xFF and no reflection it is 0xF7. *)
Lemma crc8_check_values :
  check_value (crc8.mkParams 0x07 0x00 false false 0x00 0xF4 "CRC-8") = 0xF4 /\
  check_value (crc8.mkParams 0x9B 0xFF false false 0x00 0xDA "CRC-8/CDMA2000")
  = 0xDA /\
  check_value (crc8.mkParams 0x39 0x00 true true 0x00 0x15 "CRC-8/DARC")
  = 0x15 /\
  check_value (crc8.mkParams 0x1D 0xFF true true 0x00 0x97 "CRC-8/EBU")
  = 0x97 /\
  check_value (crc8.mkParams 0x07 0x00 false false 0x55 0xA1 "CRC-8/ITU")
  = 0xA1 /\
  check_value (crc8.mkParams 0x31 0x00 true true 0x00 0xA1 "CRC-8/MAXIM")
  = 0xA1 /\
  check_value (crc8.mkParams 0x07 0xFF true true 0x00 0xD0 "CRC-8/ROHC")
  = 0xD0 /\
  check_value (crc8.params sgp30.CRC8_SGP30) = 0xF7.
Proof. vm_compute. repeat split. Qed.

(** The [Check] and [Name] fields of the parameters are a record of what the
    algorithm is expected to give; no checksum depends on them. *)
Lemma Checksum_ignores_Check (p : crc8.Params) (check : Z) (name : string)
      (d : list Z) :
  crc8.Checksum d (crc8.MakeTable p)
  = crc8.Checksum d
      (crc8.MakeTable
         (crc8.mkParams (crc8.Poly p) (crc8.Init p) (crc8.RefIn p)
                        (crc8.RefOut p) (crc8.XorOut p) check name)).
Proof. destruct p. reflexivity. Qed.

(** C8, as the spec states it, fails on the check value: with polynomial
    0x31, initial value 0xFF, no reflection and no final XOR the checksum of
    the ASCII bytes of 123456789 is not 0xA1. *)
Lemma check_value_is_not_0xA1 :
  crc8.Poly (crc8.params sgp30.CRC8_SGP30) = 0x31 /\
  crc8.Init (crc8.params sgp30.CRC8_SGP30) = 0xFF /\
  crc8.Checksum (ascii_bytes "123456789") sgp30.CRC8_SGP30 <> 0xA1.
Proof. vm_compute. repeat split. discriminate. Qed.

(** C8, amended.  The validator uses polynomial 0x31, initial value 0xFF, no
    reflection of input or output and no final XOR; with these the checksum
    of the ASCII bytes of 123456789 is 0xF7; and a group is accepted exactly
    when the CRC-8 over all its bytes is zero. *)
Theorem CRC8_SGP30_parameters_and_residue :
  crc8.Poly (crc8.params sgp30.CRC8_SGP30) = 0x31 /\
  crc8.Init (crc8.params sgp30.CRC8_SGP30) = 0xFF /\
  crc8.RefIn (crc8.params sgp30.CRC8_SGP30) = false /\
  crc8.RefOut (crc8.params sgp30.CRC8_SGP30) = false /\
  crc8.XorOut (crc8.params sgp30.CRC8_SGP30) = 0x00 /\
  crc8.Checksum (ascii_bytes "123456789") sgp30.CRC8_SGP30 = 0xF7 /\
  (forall data_hi data_lo crc : Z,
     sgp30.checkCRC8 [data_hi; data_lo; crc] = true <->
     crc8.Checksum [data_hi; data_lo; crc] sgp30.CRC8_SGP30 = 0).
Proof.
  repeat (split; [vm_compute; reflexivity|]).
  intros hi lo crc. unfold sgp30.checkCRC8. apply Z.eqb_eq.
Qed.

(** ** The gas sensor: replies in groups *)

Lemma groups_1 (d : list Z) : groups 1 d = [sub d 0 3].
Proof. reflexivity. Qed.
Lemma groups_2 (d : list Z) : groups 2 d = [sub d 0 3; sub d 3 6].
Proof. reflexivity. Qed.
Lemma groups_3 (d : list Z) : groups 3 d = [sub d 0 3; sub d 3 6; sub d 6 9].
Proof. reflexivity. Qed.

Lemma sgp30_word_defined (data : list Z) (i : Z) :
  0 <= i < Z.of_nat (length data) - 1 ->
  exists v, sgp30.word data i = Some v.
Proof.
  intros H. unfold sgp30.word. rewrite !index_in by lia. eauto.
Qed.

(** What [GetSerialNumber] returns for a reply the bus delivered. *)
Lemma GetSerialNumber_reply (w : World) (reply : list Z)
      (rest : list (option (list Z))) :
  bus w = Some reply :: rest -> length reply = 9%nat ->
  exists w0 w3 w6,
    sgp30.word reply 0 = Some w0 /\ sgp30.word reply 3 = Some w3 /\
    sgp30.word reply 6 = Some w6 /\
    fst (sgp30.GetSerialNumber w)
    = match first_bad 1 (groups 3 reply) with
      | Some (k, g) => Err (sgp30.SerialNumberCRC k g)
      | None =>
          Ok (u64 (u64 (u64 (Z.shiftl w0 24) + u64 (Z.shiftl w3 16)) + w6))
      end.
Proof.
  intros Hbus Hlen.
  destruct (sgp30_word_defined reply 0) as [w0 H0]; [rewrite Hlen; cbn; lia|].
  destruct (sgp30_word_defined reply 3) as [w3 H3]; [rewrite Hlen; cbn; lia|].
  destruct (sgp30_word_defined reply 6) as [w6 H6]; [rewrite Hlen; cbn; lia|].
  exists w0, w3, w6. repeat (split; [assumption|]).
  run_sgp30.
  rewrite (conn_Tx_reply _ _ _ _ _ _ Hbus), (fill_exact _ _ Hlen).
  rewrite H0, H3, H6, groups_3. cbn [first_bad].
  destruct (sgp30.checkCRC8 (sub reply 0 3)); cbn [negb]; [|reflexivity].
  destruct (sgp30.checkCRC8 (sub reply 3 6)); cbn [negb]; [|reflexivity].
  destruct (sgp30.checkCRC8 (sub reply 6 9)); cbn [negb]; reflexivity.
Qed.

Lemma first_bad_none (k : nat) (gs : list (list Z)) :
  first_bad k gs = None <-> all_valid gs = true.
Proof.
  revert k. induction gs as [|g gs IH]; intros k;
    cbn [first_bad all_valid forallb].
  - tauto.
  - destruct (sgp30.checkCRC8 g); cbn [andb].
    + apply IH.
    + split; discriminate.
Qed.

Lemma first_bad_fails (k : nat) (gs : list (list Z)) (j : nat) (g : list Z) :
  first_bad k gs = Some (j, g) ->
  (k <= j)%nat /\ nth_error gs (j - k) = Some g /\
  sgp30.checkCRC8 g = false /\ all_valid (firstn (j - k) gs) = true.
Proof.
  revert k. induction gs as [|g0 gs IH]; intros k; cbn [first_bad].
  - discriminate.
  - destruct (sgp30.checkCRC8 g0) eqn:Hg0.
    + intros H. destruct (IH _ H) as (Hle & Hnth & Hbad & Hpre).
      replace (j - k)%nat with (S (j - S k)) by lia.
      cbn [nth_error firstn all_valid forallb]. rewrite Hg0.
      repeat split; try assumption. lia.
    + intros H. injection H as <- <-. rewrite Nat.sub_diag.
      repeat split; try assumption. lia.
Qed.

(** The value [GetSerialNumber] assembles from a valid reply: the first
    word is shifted by 24 bits, the second by 16. *)
Lemma GetSerialNumber_value (w : World) (reply : list Z)
      (rest : list (option (list Z))) :
  bus w = Some reply :: rest -> length reply = 9%nat -> bytes reply ->
  all_valid (groups 3 reply) = true ->
  fst (sgp30.GetSerialNumber w)
  = Ok (be16 reply 0 * 2 ^ 24 + be16 reply 3 * 2 ^ 16 + be16 reply 6).
Proof.
  intros Hbus Hlen Hb Hv.
  destruct (GetSerialNumber_reply w reply rest Hbus Hlen)
    as (w0 & w3 & w6 & H0 & H3 & H6 & ->).
  apply first_bad_none with (k := 1%nat) in Hv. rewrite Hv.
  rewrite sgp30_word_be16 in H0, H3, H6
    by (try assumption; rewrite Hlen; cbn; lia).
  offsets.
  injection H0 as <-. injection H3 as <-. injection H6 as <-.
  pose proof (be16_range reply 0 Hb) as Ra.
  pose proof (be16_range reply 3 Hb) as Rb.
  pose proof (be16_range reply 6 Hb) as Rc.
  revert Ra Rb Rc.
  generalize (be16 reply 0) (be16 reply 3) (be16 reply 6).
  intros a b c Ra Rb Rc.
  rewrite !Z.shiftl_mul_pow2 by lia. unfold u64.
  change (2 ^ 24) with 16777216. change (2 ^ 16) with 65536.
  change (2 ^ 64) with 18446744073709551616.
  f_equal.
  rewrite (Z.mod_small (a * 16777216)) by lia.
  rewrite (Z.mod_small (b * 65536)) by lia.
  rewrite (Z.mod_small (a * 16777216 + b * 65536)) by lia.
  apply Z.mod_small. lia.
Qed.

(** C1.  On the reply 01 57 9C 00 00 81 AC A2 54, whose three groups pass
    CRC-8 and whose words are 0x0157, 0x0000 and 0xACA2, [GetSerialNumber]
    returns 0x15700ACA2: the first word sits 24 bits up, not 32, so the
    value is not the 48-bit w0*2^32 + w1*2^16 + w2. *)
Theorem GetSerialNumber_first_word_shifted_24 :
  all_valid (groups 3 serial_reply_0157) = true /\
  (be16 serial_reply_0157 0, be16 serial_reply_0157 3,
   be16 serial_reply_0157 6) = (0x0157, 0x0000, 0xACA2) /\
  fst (sgp30.GetSerialNumber world_serial_0157) = Ok 0x15700ACA2 /\
  0x15700ACA2 = 0x0157 * 2 ^ 24 + 0x0000 * 2 ^ 16 + 0xACA2 /\
  0x15700ACA2 <> 0x0157 * 2 ^ 32 + 0x0000 * 2 ^ 16 + 0xACA2.
Proof. vm_compute. repeat split. discriminate. Qed.

(** What [GetFeatures] and [ReadBaseline] return for a reply the bus
    delivered. *)
Lemma GetFeatures_reply (w : World) (reply : list Z)
      (rest : list (option (list Z))) :
  bus w = Some reply :: rest -> length reply = 3%nat ->
  fst (sgp30.GetFeatures w)
  = if sgp30.checkCRC8 (sub reply 0 3)
    then Ok (nth 0 reply 0, nth 1 reply 0)
    else Err (sgp30.FeaturesCRC (sub reply 0 3)).
Proof.
  intros Hbus Hlen. run_sgp30.
  rewrite (conn_Tx_reply _ _ _ _ _ _ Hbus), (fill_exact _ _ Hlen).
  rewrite !nth_error_in by (rewrite Hlen; lia).
  destruct (sgp30.checkCRC8 (sub reply 0 3)); reflexivity.
Qed.

Lemma ReadBaseline_reply (w : World) (reply : list Z)
      (rest : list (option (list Z))) :
  bus w = Some reply :: rest ->
  fst (sgp30.ReadBaseline w)
  = match first_bad 1 (groups 2 (fill 6 reply)) with
    | Some (k, g) => Err (sgp30.BaselineCRC k g)
    | None => Ok (fill 6 reply)
    end.
Proof.
  intros Hbus. run_sgp30.
  rewrite (conn_Tx_reply _ _ _ _ _ _ Hbus), groups_2. cbn [first_bad].
  destruct (sgp30.checkCRC8 (sub (fill 6 reply) 0 3)); cbn [negb];
    [|reflexivity].
  destruct (sgp30.checkCRC8 (sub (fill 6 reply) 3 6)); reflexivity.
Qed.

(** ** The gas sensor: air quality and autosave *)

(** A call of [ReadAirQuality] that returns values: what the bus held, and
    what the call did. *)
Lemma ReadAirQuality_ok_inv (d d' : sgp30.Dev) (w w' : World) (v : Z * Z) :
  sgp30.ReadAirQuality (d, w) = (Ok v, (d', w')) ->
  exists r0 reply rest,
    bus w = Some r0 :: Some reply :: rest /\
    all_valid (groups 2 (fill 6 reply)) = true /\
    sgp30.word (fill 6 reply) 0 = Some (fst v) /\
    sgp30.word (fill 6 reply) 3 = Some (snd v) /\
    if autosave_due d w
    then exists b rest',
        rest = Some b :: rest' /\
        all_valid (groups 2 (fill 6 b)) = true /\
        d' = sgp30.set_lastSave d (clock w (S (ticks w))) /\
        log w' = log w ++ aq_events ++
                 [baseline_read_event;
                  EvWriteFile (sgp30.baselineFile d) (fill 6 b)]
    else d' = d /\ log w' = log w ++ aq_events.
Proof.
  destruct w as [b c t f ro sl lg], d as [file iv ls].
  intros H. run_sgp30_in H. run_world_in H.
  destruct b as [|[r0|] [|[reply|] rest]]; try discriminate.
  exists r0, reply, rest. rewrite groups_2. world_goal.
  destruct (sgp30.checkCRC8 (sub (fill 6 reply) 0 3));
    cbn [negb andb] in *; [|discriminate].
  destruct (sgp30.checkCRC8 (sub (fill 6 reply) 3 6));
    cbn [negb andb] in *; [|discriminate].
  destruct (0 <? String.length file)%nat; cbn [andb] in *.
  - destruct (iv <=? c t - ls).
    + destruct rest as [|[bl|] rest']; try discriminate.
      destruct (sgp30.checkCRC8 (sub (fill 6 bl) 0 3)) eqn:E1;
        cbn [negb andb] in *; [|discriminate].
      destruct (sgp30.checkCRC8 (sub (fill 6 bl) 3 6)) eqn:E2;
        cbn [negb andb] in *; [|discriminate].
      destruct (sgp30.word (fill 6 reply) 0) as [a0|];
        [|destruct (ro file) as [[|written]|]; discriminate].
      destruct (sgp30.word (fill 6 reply) 3) as [a3|];
        [|destruct (ro file) as [[|written]|]; discriminate].
      assert (Hv : v = (a0, a3) /\ d' = sgp30.mkDev file iv (c (S t)) /\
                   log w' = ((((lg ++ [EvTx sgp30.SGP30_ADDR [32; 8] 0]) ++
                                [EvSleep (10 * millisecond)]) ++
                               [EvTx sgp30.SGP30_ADDR [] 6]) ++
                              [EvTx sgp30.SGP30_ADDR [32; 21] 6]) ++
                            [EvWriteFile file (fill 6 bl)]).
      { destruct (ro file) as [[|written]|]; injection H as <- <- <-;
          repeat split. }
      destruct Hv as (-> & -> & ->).
      repeat split. exists bl, rest'. rewrite groups_2. world_goal.
      rewrite E1, E2. repeat split. rewrite <- !app_assoc. reflexivity.
    + destruct (sgp30.word (fill 6 reply) 0); [|discriminate].
      destruct (sgp30.word (fill 6 reply) 3); [|discriminate].
      injection H as <- <- <-. repeat split.
      rewrite <- !app_assoc. reflexivity.
  - destruct (sgp30.word (fill 6 reply) 0); [|discriminate].
    destruct (sgp30.word (fill 6 reply) 3); [|discriminate].
    injection H as <- <- <-. repeat split.
    rewrite <- !app_assoc. reflexivity.
Qed.

(** A reply with a failing group: the error names the first one. *)
Lemma ReadAirQuality_bad_group (d : sgp30.Dev) (w : World) (r0 reply : list Z)
      (rest : list (option (list Z))) (k : nat) (g : list Z) :
  bus w = Some r0 :: Some reply :: rest ->
  first_bad 1 (groups 2 (fill 6 reply)) = Some (k, g) ->
  fst (sgp30.ReadAirQuality (d, w)) = Err (sgp30.AirQualityCRC k g).
Proof.
  destruct w as [b c t f ro sl lg], d as [file iv ls].
  cbn [bus]. intros -> H. rewrite groups_2 in H. cbn [first_bad] in H.
  run_sgp30. run_world.
  destruct (sgp30.checkCRC8 (sub (fill 6 reply) 0 3)); cbn [negb].
  - destruct (sgp30.checkCRC8 (sub (fill 6 reply) 3 6)); cbn [negb].
    + discriminate H.
    + injection H as <- <-. reflexivity.
  - injection H as <- <-. reflexivity.
Qed.

(** A reply with two valid groups: values are returned unless the autosave
    is due and the baseline cannot be read; when the autosave is due the
    timestamp of the handle is the clock reading taken before the baseline
    was asked for, whatever the outcome. *)
Lemma ReadAirQuality_valid_reply (d : sgp30.Dev) (w : World)
      (r0 reply : list Z) (rest : list (option (list Z))) :
  bus w = Some r0 :: Some reply :: rest ->
  all_valid (groups 2 (fill 6 reply)) = true ->
  is_ok (fst (sgp30.ReadAirQuality (d, w)))
  = negb (autosave_due d w) || baseline_readable rest /\
  (autosave_due d w = true ->
   fst (snd (sgp30.ReadAirQuality (d, w)))
   = sgp30.set_lastSave d (clock w (S (ticks w)))) /\
  (autosave_due d w = true -> baseline_readable rest = false ->
   exists e, fst (sgp30.ReadAirQuality (d, w))
             = Err (sgp30.AirQualityBaseline e)).
Proof.
  intros Hbus Hv.
  destruct (sgp30_word_defined (fill 6 reply) 0) as [a0 H0];
    [rewrite fill_length; lia|].
  destruct (sgp30_word_defined (fill 6 reply) 3) as [a3 H3];
    [rewrite fill_length; lia|].
  destruct w as [b c t f ro sl lg], d as [file iv ls].
  cbn [bus] in Hbus. subst b. rewrite groups_2 in Hv.
  cbn [all_valid forallb] in Hv.
  apply andb_prop in Hv as [Hv1 Hv2]. apply andb_prop in Hv2 as [Hv2 _].
  unfold baseline_readable. world_goal.
  run_sgp30. run_world. rewrite Hv1, Hv2, H0, H3. cbn [negb].
  destruct (0 <? String.length file)%nat; cbn [andb negb orb].
  2:{ cbn [is_ok]. repeat split; intros; try discriminate; eauto. }
  destruct (iv <=? c t - ls); cbn [negb orb].
  2:{ cbn [is_ok]. repeat split; intros; try discriminate; eauto. }
  destruct rest as [|[bl|] rest'].
  - cbn [is_ok]. repeat split; intros; try discriminate; eauto.
  - rewrite groups_2. cbn [all_valid forallb].
    destruct (sgp30.checkCRC8 (sub (fill 6 bl) 0 3)); cbn [negb andb].
    + destruct (sgp30.checkCRC8 (sub (fill 6 bl) 3 6)); cbn [negb andb].
      * destruct (ro file) as [[|written]|]; cbn [is_ok]; repeat split; intros;
          try discriminate; eauto.
      * cbn [is_ok]. repeat split; intros; try discriminate; eauto.
    + cbn [is_ok]. repeat split; intros; try discriminate; eauto.
  - cbn [is_ok]. repeat split; intros; try discriminate; eauto.
Qed.

Lemma triple_eta {A B C : Type} (x : A * (B * C)) :
  x = (fst x, (fst (snd x), snd (snd x))).
Proof. destruct x as [a [b c]]. reflexivity. Qed.

Lemma events_since_app (w w' : World) (evs : list event) :
  log w' = log w ++ evs -> events_since w w' = evs.
Proof.
  intros H. unfold events_since. rewrite H, skipn_app, skipn_all.
  rewrite Nat.sub_diag. reflexivity.
Qed.

(** C2.  A handle with a calibration path whose autosave is due, an
    air-quality exchange that succeeds and a Read-Baseline exchange that
    fails on the bus: [ReadAirQuality] returns the baseline error, nothing
    is written, and yet the last-save timestamp of the handle has moved from
    0 to the clock reading taken before the baseline was asked for. *)
Theorem ReadAirQuality_failed_autosave_moves_lastSave :
  autosave_due saving_handle world_baseline_fails = true /\
  fst (sgp30.ReadAirQuality (saving_handle, world_baseline_fails))
  = Err (sgp30.AirQualityBaseline (sgp30.BaselineTx TransportFailure)) /\
  count is_file_write
        (events_since
           world_baseline_fails
           (snd (snd (sgp30.ReadAirQuality
                        (saving_handle, world_baseline_fails))))) = 0%nat /\
  sgp30.lastSave saving_handle = 0 /\
  sgp30.lastSave
    (fst (snd (sgp30.ReadAirQuality (saving_handle, world_baseline_fails))))
  = 60 * second + 1.
Proof. vm_compute. repeat split. Qed.



(** ** The gas sensor: every group of a reply is checked *)

Lemma first_bad_exists (gs : list (list Z)) :
  all_valid gs = false ->
  exists k g, first_bad 1 gs = Some (k, g) /\ (1 <= k)%nat /\
              nth_error gs (k - 1) = Some g /\ sgp30.checkCRC8 g = false.
Proof.
  intros H. destruct (first_bad 1 gs) as [[k g]|] eqn:Hf.
  - exists k, g. destruct (first_bad_fails 1 gs k g Hf) as (Hk & Hn & Hb & _).
    repeat split; assumption.
  - apply first_bad_none in Hf. congruence.
Qed.

(** C9, as the spec states it, fails for [ReadAirQuality]: every exchange is
    delivered without a transport error and both groups of the air-quality
    reply pass CRC-8, yet no value is returned, because the autosave is due
    and the baseline it reads is not valid. *)
Lemma ReadAirQuality_valid_groups_yet_error :
  bus world_baseline_invalid
  = [Some []; Some GoodAirQualityData; Some BadBaselineData] /\
  all_valid (groups 2 GoodAirQualityData) = true /\
  is_ok (fst (sgp30.ReadAirQuality (saving_handle, world_baseline_invalid)))
  = false /\
  fst (sgp30.ReadAirQuality (saving_handle, world_baseline_invalid))
  = Err (sgp30.AirQualityBaseline (sgp30.BaselineCRC 1 [0; 0; 0])).
Proof. vm_compute. repeat split. Qed.

(** C9, amended.  For a reply delivered without transport error,
    [GetSerialNumber] (3 groups), [GetFeatures] (1 group) and [ReadBaseline]
    (2 groups) return a value exactly when every group passes CRC-8, and
    [ReadAirQuality] (2 groups) exactly when every group passes and the
    autosave, if due, can read a valid baseline; when a group fails, each of
    the four returns the error that carries the first failing group. *)
Theorem replies_checked_group_by_group :
  (forall w reply rest,
      bus w = Some reply :: rest -> length reply = 9%nat ->
      is_ok (fst (sgp30.GetSerialNumber w)) = all_valid (groups 3 reply) /\
      forall k g, first_bad 1 (groups 3 reply) = Some (k, g) ->
                  fst (sgp30.GetSerialNumber w)
                  = Err (sgp30.SerialNumberCRC k g)) /\
  (forall w reply rest,
      bus w = Some reply :: rest -> length reply = 3%nat ->
      is_ok (fst (sgp30.GetFeatures w)) = all_valid (groups 1 reply) /\
      forall k g, first_bad 1 (groups 1 reply) = Some (k, g) ->
                  fst (sgp30.GetFeatures w) = Err (sgp30.FeaturesCRC g)) /\
  (forall w reply rest,
      bus w = Some reply :: rest -> length reply = 6%nat ->
      is_ok (fst (sgp30.ReadBaseline w)) = all_valid (groups 2 reply) /\
      forall k g, first_bad 1 (groups 2 reply) = Some (k, g) ->
                  fst (sgp30.ReadBaseline w) = Err (sgp30.BaselineCRC k g)) /\
  (forall d w request_reply reply rest,
      bus w = Some request_reply :: Some reply :: rest ->
      length reply = 6%nat ->
      is_ok (fst (sgp30.ReadAirQuality (d, w)))
      = all_valid (groups 2 reply) &&
        (negb (autosave_due d w) || baseline_readable rest) /\
      forall k g, first_bad 1 (groups 2 reply) = Some (k, g) ->
                  fst (sgp30.ReadAirQuality (d, w))
                  = Err (sgp30.AirQualityCRC k g)) /\
  (forall n reply,
      all_valid (groups n reply) = false ->
      exists k g, first_bad 1 (groups n reply) = Some (k, g) /\
                  (1 <= k)%nat /\
                  nth_error (groups n reply) (k - 1) = Some g /\
                  sgp30.checkCRC8 g = false).
Proof.
  split; [|split; [|split; [|split]]].
  - intros w reply rest Hbus Hlen.
    destruct (GetSerialNumber_reply w reply rest Hbus Hlen)
      as (w0 & w3 & w6 & _ & _ & _ & ->).
    destruct (first_bad 1 (groups 3 reply)) as [[k g]|] eqn:Hf.
    + split.
      * cbn [is_ok]. symmetry. apply not_true_is_false. intros Hv.
        apply first_bad_none with (k := 1%nat) in Hv. congruence.
      * intros k' g' H. injection H as <- <-. reflexivity.
    + split; [|discriminate].
      cbn [is_ok]. symmetry. apply first_bad_none with (k := 1%nat).
      exact Hf.
  - intros w reply rest Hbus Hlen.
    rewrite (GetFeatures_reply w reply rest Hbus Hlen), groups_1.
    cbn [all_valid forallb first_bad].
    destruct (sgp30.checkCRC8 (sub reply 0 3)); cbn [is_ok andb].
    + split; [reflexivity|discriminate].
    + split; [reflexivity|]. intros k g H. injection H as <- <-. reflexivity.
  - intros w reply rest Hbus Hlen.
    rewrite (ReadBaseline_reply w reply rest Hbus), (fill_exact _ _ Hlen).
    destruct (first_bad 1 (groups 2 reply)) as [[k g]|] eqn:Hf.
    + split.
      * cbn [is_ok]. symmetry. apply not_true_is_false. intros Hv.
        apply first_bad_none with (k := 1%nat) in Hv. congruence.
      * intros k' g' H. injection H as <- <-. reflexivity.
    + split; [|discriminate].
      cbn [is_ok]. symmetry. apply first_bad_none with (k := 1%nat).
      exact Hf.
  - intros d w r0 reply rest Hbus Hlen. split.
    + destruct (all_valid (groups 2 reply)) eqn:Hv; cbn [andb].
      * rewrite <- (fill_exact _ _ Hlen) in Hv.
        apply (ReadAirQuality_valid_reply d w r0 reply rest Hbus Hv).
      * destruct (first_bad_exists _ Hv) as (k & g & Hf & _).
        rewrite <- (fill_exact _ _ Hlen) in Hf.
        rewrite (ReadAirQuality_bad_group d w r0 reply rest k g Hbus Hf).
        reflexivity.
    + intros k g Hf. rewrite <- (fill_exact _ _ Hlen) in Hf.
      apply (ReadAirQuality_bad_group d w r0 reply rest k g Hbus Hf).
  - intros n reply. apply first_bad_exists.
Qed.

Lemma replies_checked_group_by_group_witness :
  is_ok (fst (sgp30.GetSerialNumber
                (playback [Some GoodSerialNumber] 0 no_files))) = true /\
  fst (sgp30.GetSerialNumber (playback [Some BadSerialNumber] 0 no_files))
  = Err (sgp30.SerialNumberCRC 1 [0; 0; 0]) /\
  is_ok (fst (sgp30.GetFeatures
                (playback [Some GoodFeaturesData] 0 no_files))) = true /\
  is_ok (fst (sgp30.ReadBaseline
                (playback [Some GoodBaselineData] 0 no_files))) = true /\
  is_ok (fst (sgp30.ReadAirQuality (saving_handle, world_baseline_invalid)))
  = false.
Proof.
  pose proof replies_checked_group_by_group as (Hs & Hf & Hb & Ha & _).
  split.
  { rewrite (proj1 (Hs (playback [Some GoodSerialNumber] 0 no_files)
                       GoodSerialNumber [] eq_refl eq_refl)).
    vm_compute. reflexivity. }
  split.
  { apply (proj2 (Hs (playback [Some BadSerialNumber] 0 no_files)
                     BadSerialNumber [] eq_refl eq_refl)).
    vm_compute. reflexivity. }
  split.
  { rewrite (proj1 (Hf (playback [Some GoodFeaturesData] 0 no_files)
                       GoodFeaturesData [] eq_refl eq_refl)).
    vm_compute. reflexivity. }
  split.
  { rewrite (proj1 (Hb (playback [Some GoodBaselineData] 0 no_files)
                       GoodBaselineData [] eq_refl eq_refl)).
    vm_compute. reflexivity. }
  rewrite (proj1 (Ha saving_handle world_baseline_invalid []
                     GoodAirQualityData [Some BadBaselineData]
                     eq_refl eq_refl)).
  vm_compute. reflexivity.
Defined.

(** ** The gas sensor: writing the baseline *)

Lemma sub_app_l (a b : list Z) (lo hi : nat) :
  (hi <= length a)%nat -> sub (a ++ b) lo hi = sub a lo hi.
Proof.
  intros H. unfold sub. rewrite skipn_app, firstn_app, length_skipn.
  replace (hi - lo - (length a - lo))%nat with 0%nat by lia.
  cbn [firstn]. apply app_nil_r.
Qed.

Lemma reslice_within (s : slice) (lo hi : nat) :
  (lo <= hi)%nat -> (hi <= len s)%nat ->
  reslice s lo hi = Some (sub (elems s) lo hi).
Proof.
  intros Hlo Hhi. unfold reslice, cap, len in *.
  replace ((lo <=? hi)%nat && (hi <=? length (elems s) + length (spare s))%nat)
    with true
    by (symmetry; apply andb_true_iff; split; apply Nat.leb_le; lia).
  rewrite sub_app_l by exact Hhi. reflexivity.
Qed.

(** [SetBaseline] on a slice of at least six bytes. *)
Lemma SetBaseline_run (b : slice) (w : World) :
  (6 <= len b)%nat ->
  sgp30.SetBaseline b w
  = if negb (sgp30.checkCRC8 (sub (elems b) 0 3))
    then (Err (sgp30.SetBaselineCRC 1 (sub (elems b) 0 3)), w)
    else if negb (sgp30.checkCRC8 (sub (elems b) 3 6))
    then (Err (sgp30.SetBaselineCRC 2 (sub (elems b) 3 6)), w)
    else
      match conn_Tx sgp30.SGP30_ADDR (baseline_frame (elems b)) 0
                    (snd (sgp30.StartMeasurements w)) with
      | (Ok _, w2) => (Ok tt, w2)
      | (Err e, w2) => (Err (sgp30.SetBaselineTx e), w2)
      | (Panic, w2) => (Panic, w2)
      end.
Proof.
  intros Hlen. run_sgp30. rewrite !reslice_within by lia.
  destruct (sgp30.checkCRC8 (sub (elems b) 0 3)); cbn [negb]; [|reflexivity].
  destruct (sgp30.checkCRC8 (sub (elems b) 3 6)); cbn [negb]; [|reflexivity].
  unfold baseline_frame, swap_groups. cbn [app].
  destruct (bus w) as [|[r|] rest] eqn:Hbus;
    [rewrite (conn_Tx_silent _ _ _ _ Hbus)
    |rewrite (conn_Tx_reply _ _ _ _ _ _ Hbus)
    |rewrite (conn_Tx_failure _ _ _ _ _ Hbus)];
    cbn [snd];
    match goal with
    | |- context [conn_Tx ?a ?wr ?n ?w1] =>
        destruct (conn_Tx a wr n w1) as [[r'|e'|] w2]
    end; reflexivity.
Qed.

Lemma StartMeasurements_log (w : World) :
  log (snd (sgp30.StartMeasurements w))
  = log w ++ [EvTx sgp30.SGP30_ADDR [0x20; 0x03] 0].
Proof.
  run_sgp30. rewrite <- (conn_Tx_log sgp30.SGP30_ADDR [0x20; 0x03] 0 w).
  destruct (conn_Tx sgp30.SGP30_ADDR [32; 3] 0 w) as [[r|e|] w1]; reflexivity.
Qed.

(** The exchanges of a [SetBaseline] whose groups are valid: the start
    command, then the baseline command, whatever the bus answers. *)
Lemma SetBaseline_log (b : slice) (w : World) :
  (6 <= len b)%nat -> all_valid (groups 2 (elems b)) = true ->
  log (snd (sgp30.SetBaseline b w))
  = log w ++ [EvTx sgp30.SGP30_ADDR [0x20; 0x03] 0;
              EvTx sgp30.SGP30_ADDR (baseline_frame (elems b)) 0].
Proof.
  intros Hlen Hv. rewrite groups_2 in Hv. cbn [all_valid forallb] in Hv.
  apply andb_prop in Hv as [Hv1 Hv2]. apply andb_prop in Hv2 as [Hv2 _].
  rewrite (SetBaseline_run b w Hlen), Hv1, Hv2.
  cbn [negb].
  pose proof (conn_Tx_log sgp30.SGP30_ADDR (baseline_frame (elems b)) 0
                (snd (sgp30.StartMeasurements w))) as Hlog.
  rewrite StartMeasurements_log, <- app_assoc in Hlog. cbn [app] in Hlog.
  rewrite <- Hlog.
  destruct (conn_Tx sgp30.SGP30_ADDR (baseline_frame (elems b)) 0
              (snd (sgp30.StartMeasurements w))) as [[r|e|] w2]; reflexivity.
Qed.

Lemma SetBaseline_events (b : slice) (w : World) :
  (6 <= len b)%nat -> all_valid (groups 2 (elems b)) = true ->
  events_since w (snd (sgp30.SetBaseline b w))
  = [EvTx sgp30.SGP30_ADDR [0x20; 0x03] 0;
     EvTx sgp30.SGP30_ADDR (baseline_frame (elems b)) 0].
Proof.
  intros Hlen Hv. apply events_since_app, SetBaseline_log; assumption.
Qed.

Lemma baseline_frame_bytes (b : list Z) :
  length b = 6%nat ->
  baseline_frame b
  = [0x20; 0x1E; nth 3 b 0; nth 4 b 0; nth 5 b 0;
     nth 0 b 0; nth 1 b 0; nth 2 b 0].
Proof. intros H. explode b H. reflexivity. Qed.

Lemma swap_groups_involutive (b : list Z) :
  length b = 6%nat -> swap_groups (swap_groups b) = b.
Proof. intros H. explode b H. reflexivity. Qed.

(** C5.  For every 6-byte baseline whose two groups pass CRC-8,
    [SetBaseline] transmits the eight bytes 0x20 0x1E, bytes 3..5, bytes
    0..2; for 88 A1 58 8D C4 61 these are 20 1E 8D C4 61 88 A1 58; exchanging
    the groups twice gives the baseline back, and the bytes [ReadBaseline]
    returns, given to [SetBaseline], are transmitted as the same command. *)
Theorem SetBaseline_transmits_groups_swapped (w : World)
        (baseline spare : list Z) :
  length baseline = 6%nat -> all_valid (groups 2 baseline) = true ->
  let sent :=
    [0x20; 0x1E; nth 3 baseline 0; nth 4 baseline 0; nth 5 baseline 0;
     nth 0 baseline 0; nth 1 baseline 0; nth 2 baseline 0] in
  events_since w (snd (sgp30.SetBaseline (mkSlice baseline spare) w))
  = [EvTx sgp30.SGP30_ADDR [0x20; 0x03] 0; EvTx sgp30.SGP30_ADDR sent 0] /\
  (baseline = GoodBaselineData ->
   sent = [0x20; 0x1E; 0x8D; 0xC4; 0x61; 0x88; 0xA1; 0x58]) /\
  swap_groups (swap_groups baseline) = baseline /\
  skipn 2 sent = swap_groups baseline /\
  (forall w0 rest read,
      bus w0 = Some baseline :: rest ->
      fst (sgp30.ReadBaseline w0) = Ok read ->
      read = baseline /\
      events_since w (snd (sgp30.SetBaseline (slice_of read) w))
      = [EvTx sgp30.SGP30_ADDR [0x20; 0x03] 0;
         EvTx sgp30.SGP30_ADDR sent 0]).
Proof.
  intros Hlen Hv sent.
  assert (Hsent : sent = baseline_frame baseline)
    by (symmetry; apply baseline_frame_bytes; exact Hlen).
  assert (Hev : forall sp,
             events_since w (snd (sgp30.SetBaseline (mkSlice baseline sp) w))
             = [EvTx sgp30.SGP30_ADDR [0x20; 0x03] 0;
                EvTx sgp30.SGP30_ADDR sent 0]).
  { intros sp. rewrite Hsent.
    apply (SetBaseline_events (mkSlice baseline sp) w).
    - unfold len. cbn [elems]. lia.
    - exact Hv. }
  split; [apply Hev|]. split.
  { intros ->. reflexivity. }
  split; [apply swap_groups_involutive; exact Hlen|]. split.
  { rewrite Hsent. reflexivity. }
  intros w0 rest read Hbus Hread.
  rewrite (ReadBaseline_reply w0 baseline rest Hbus) in Hread.
  rewrite (fill_exact _ _ Hlen) in Hread.
  apply first_bad_none with (k := 1%nat) in Hv. rewrite Hv in Hread.
  injection Hread as <-. split; [reflexivity|]. apply Hev.
Qed.

Lemma SetBaseline_transmits_groups_swapped_witness :
  length GoodBaselineData = 6%nat /\
  all_valid (groups 2 GoodBaselineData) = true /\
  events_since
    world_two_acks
    (snd (sgp30.SetBaseline (slice_of GoodBaselineData) world_two_acks))
  = [EvTx sgp30.SGP30_ADDR [0x20; 0x03] 0;
     EvTx sgp30.SGP30_ADDR [0x20; 0x1E; 0x8D; 0xC4; 0x61; 0x88; 0xA1; 0x58] 0].
Proof.
  assert (Hlen : length GoodBaselineData = 6%nat) by reflexivity.
  assert (Hv : all_valid (groups 2 GoodBaselineData) = true)
    by (vm_compute; reflexivity).
  split; [exact Hlen|]. split; [exact Hv|].
  exact (proj1 (SetBaseline_transmits_groups_swapped
                  world_two_acks GoodBaselineData [] Hlen Hv)).
Defined.

(** C10.  For every 6-byte baseline whose two groups pass CRC-8,
    [SetBaseline] sends the start command 0x20 0x03 and then the baseline
    command, and drops the result of the first: it never returns the error
    of [StartMeasurements], its outcome is that of the baseline write alone,
    and when the start exchange fails on the bus and the baseline write
    succeeds it returns no error. *)
Theorem SetBaseline_drops_StartMeasurements_result (w : World)
        (baseline spare : list Z) :
  length baseline = 6%nat -> all_valid (groups 2 baseline) = true ->
  let r := sgp30.SetBaseline (mkSlice baseline spare) w in
  events_since w (snd r)
  = [EvTx sgp30.SGP30_ADDR [0x20; 0x03] 0;
     EvTx sgp30.SGP30_ADDR ([0x20; 0x1E] ++ swap_groups baseline) 0] /\
  (forall e, fst r <> Err (sgp30.StartTx e)) /\
  is_ok (fst r)
  = is_ok (fst (conn_Tx sgp30.SGP30_ADDR ([0x20; 0x1E] ++ swap_groups baseline)
                        0 (snd (sgp30.StartMeasurements w)))) /\
  (forall reply rest,
      bus w = None :: Some reply :: rest ->
      fst (sgp30.StartMeasurements w) = Err (sgp30.StartTx TransportFailure) /\
      fst r = Ok tt).
Proof.
  intros Hlen Hv r.
  assert (H6 : (6 <= len (mkSlice baseline spare))%nat)
    by (unfold len; cbn [elems]; lia).
  split.
  { apply (SetBaseline_events (mkSlice baseline spare) w H6 Hv). }
  pose proof (SetBaseline_run (mkSlice baseline spare) w H6) as Hrun.
  fold r in Hrun. cbn [elems] in Hrun.
  rewrite groups_2 in Hv. cbn [all_valid forallb] in Hv.
  apply andb_prop in Hv as [Hv1 Hv2]. apply andb_prop in Hv2 as [Hv2 _].
  rewrite Hv1, Hv2 in Hrun. cbn [negb] in Hrun.
  change ([0x20; 0x1E] ++ swap_groups baseline) with (baseline_frame baseline).
  split; [|split].
  - intros e. rewrite Hrun.
    destruct (conn_Tx sgp30.SGP30_ADDR (baseline_frame baseline) 0
                (snd (sgp30.StartMeasurements w))) as [[x|e'|] w2];
      cbn [fst]; discriminate.
  - rewrite Hrun.
    destruct (conn_Tx sgp30.SGP30_ADDR (baseline_frame baseline) 0
                (snd (sgp30.StartMeasurements w))) as [[x|e'|] w2];
      reflexivity.
  - intros reply rest Hbus. rewrite Hrun. run_sgp30.
    rewrite (conn_Tx_failure _ _ _ _ _ Hbus). cbn [fst snd].
    split; [reflexivity|].
    erewrite conn_Tx_reply by reflexivity. reflexivity.
Qed.

Lemma SetBaseline_drops_StartMeasurements_result_witness :
  length GoodBaselineData = 6%nat /\
  all_valid (groups 2 GoodBaselineData) = true /\
  fst (sgp30.StartMeasurements world_start_fails)
  = Err (sgp30.StartTx TransportFailure) /\
  fst (sgp30.SetBaseline (slice_of GoodBaselineData) world_start_fails)
  = Ok tt.
Proof.
  assert (Hlen : length GoodBaselineData = 6%nat) by reflexivity.
  assert (Hv : all_valid (groups 2 GoodBaselineData) = true)
    by (vm_compute; reflexivity).
  split; [exact Hlen|]. split; [exact Hv|].
  exact (proj2 (proj2 (proj2 (SetBaseline_drops_StartMeasurements_result
                                world_start_fails GoodBaselineData []
                                Hlen Hv)))
               [] [] eq_refl).
Defined.

(** ** The gas sensor: restoring the baseline at construction *)





(** What [New] does with a file shorter than six bytes depends on the
    capacity of the buffer the file was read into: with none to spare the
    slice expression panics, with spare zero bytes the padded group is
    checked like any other. *)
Lemma New_short_file_depends_on_capacity :
  fst (sgp30.New "baseline" (30 * second) (world_with_file short_file []))
  = Panic /\
  fst (sgp30.New "baseline" (30 * second)
                 (world_with_file short_file (repeat 0 507)))
  = Err (sgp30.SetBaselineCRC 2 [0x8d; 0xc4; 0x00]).
Proof. vm_compute. repeat split. Qed.

(** * Further properties of the two packages *)

(** ** Words *)

Lemma index_none_iff (a : list Z) (i : Z) :
  index a i = None <-> i < 0 \/ Z.of_nat (length a) <= i.
Proof.
  unfold index. destruct (i <? 0) eqn:Hneg.
  - apply Z.ltb_lt in Hneg. split; [intros _; left; exact Hneg|reflexivity].
  - apply Z.ltb_ge in Hneg. rewrite nth_error_None. lia.
Qed.

Lemma word_none_iff (data : list Z) (i : Z) :
  pmsa003i.word data i = None <-> i < 0 \/ Z.of_nat (length data) <= i + 1.
Proof.
  unfold pmsa003i.word.
  destruct (index data i) as [hi|] eqn:Hi.
  - assert (Hin : ~ (i < 0 \/ Z.of_nat (length data) <= i)).
    { intros H. apply index_none_iff in H. congruence. }
    destruct (index data (i + 1)) as [lo|] eqn:Hlo.
    + split; [discriminate|]. intros H.
      assert (Hout : index data (i + 1) = None)
        by (apply index_none_iff; lia).
      congruence.
    + split; [intros _|reflexivity].
      apply index_none_iff in Hlo. lia.
  - split; [intros _|reflexivity].
    apply index_none_iff in Hi. lia.
Qed.

(** X1.  [word], on an index [i] of type [int], panics exactly when [i] is
    negative or [i+1] is not below the length of the buffer; the two
    packages have the same [word]; on bytes it is [(b[i] << 8) | b[i+1]], a
    16-bit value from which the two bytes are recovered by division by
    256. *)
Theorem word_is_big_endian_or_panics (data : list Z) (i : Z) :
  (pmsa003i.word data i = None <->
   i < 0 \/ Z.of_nat (length data) <= i + 1) /\
  sgp30.word data i = pmsa003i.word data i /\
  (bytes data -> 0 <= i < Z.of_nat (length data) - 1 ->
   exists v,
     pmsa003i.word data i = Some v /\
     v = Z.lor (Z.shiftl (nth (Z.to_nat i) data 0) 8)
               (nth (Z.to_nat i + 1) data 0) /\
     0 <= v < 2 ^ 16 /\
     v / 256 = nth (Z.to_nat i) data 0 /\
     v mod 256 = nth (Z.to_nat i + 1) data 0).
Proof.
  split; [apply word_none_iff|split; [reflexivity|]].
  intros Hb Hi. exists (be16 data (Z.to_nat i)).
  split; [apply pmsa_word_be16; assumption|].
  split; [apply be16_lor; exact Hb|].
  pose proof (bytes_nth data (Z.to_nat i) Hb).
  pose proof (bytes_nth data (Z.to_nat i + 1) Hb).
  unfold be16. change (2 ^ 16) with 65536.
  split; [lia|]. split.
  - symmetry.
    apply (Z.div_unique _ 256 _ (nth (Z.to_nat i + 1) data 0)); lia.
  - symmetry. apply (Z.mod_unique _ 256 (nth (Z.to_nat i) data 0)); lia.
Qed.

Lemma word_is_big_endian_or_panics_witness :
  bytes [0x00; 0x01; 0x80; 0x0A; 0x55; 0xAA; 0xFF; 0x7F] /\
  pmsa003i.word [0x00; 0x01; 0x80; 0x0A; 0x55; 0xAA; 0xFF; 0x7F] 6
  = Some 0xFF7F /\
  pmsa003i.word [0x00; 0x01; 0x80; 0x0A; 0x55; 0xAA; 0xFF; 0x7F] (-1)
  = None.
Proof.
  assert (Hb : bytes [0x00; 0x01; 0x80; 0x0A; 0x55; 0xAA; 0xFF; 0x7F])
    by (apply bytes_iff; vm_compute; reflexivity).
  split; [exact Hb|]. split.
  - destruct (proj2 (proj2 (word_is_big_endian_or_panics
                              [0x00; 0x01; 0x80; 0x0A; 0x55; 0xAA; 0xFF; 0x7F]
                              6)) Hb ltac:(cbn; lia))
      as (v & -> & -> & _).
    reflexivity.
  - apply (proj1 (word_is_big_endian_or_panics
                    [0x00; 0x01; 0x80; 0x0A; 0x55; 0xAA; 0xFF; 0x7F] (-1))).
    left. lia.
Defined.

(** ** The arithmetic checksum on buffers of any length *)

(** X2.  [checksum] panics on a buffer of fewer than 32 bytes; on a longer
    one it compares the word at the fixed offset 30 with the 16-bit sum of
    all bytes but the last two, wherever the buffer ends. *)
Theorem checksum_on_any_length (data : list Z) :
  ((length data < 32)%nat -> pmsa003i.checksum data = None) /\
  ((32 <= length data)%nat -> bytes data ->
   pmsa003i.checksum data
   = Some (be16 data 30
           =? fold_right Z.add 0 (firstn (length data - 2) data) mod 2 ^ 16)).
Proof.
  split.
  - intros Hlen. unfold pmsa003i.checksum.
    replace (pmsa003i.word data 30) with (@None Z); [reflexivity|].
    symmetry. apply word_none_iff. cbn. lia.
  - intros Hlen Hb. unfold pmsa003i.checksum.
    rewrite pmsa_word_be16 by (try assumption; cbn; lia).
    change 0 with (u16 0) at 1. rewrite sum16_fold.
    unfold u16. change (2 ^ 16) with 65536. rewrite Z.add_0_l. reflexivity.
Qed.

Lemma checksum_on_any_length_witness :
  pmsa003i.checksum short_frame = None /\
  (32 <= length long_frame)%nat /\
  bytes long_frame /\
  pmsa003i.checksum long_frame = Some false.
Proof.
  assert (Hlen : (32 <= length long_frame)%nat) by (cbn; lia).
  assert (Hb : bytes long_frame)
    by (apply bytes_iff; vm_compute; reflexivity).
  split.
  { apply (proj1 (checksum_on_any_length short_frame)). cbn. lia. }
  split; [exact Hlen|]. split; [exact Hb|].
  rewrite (proj2 (checksum_on_any_length long_frame) Hlen Hb).
  vm_compute. reflexivity.
Defined.

(** X3.  The checksum of the particle sensor detects every change of a
    single byte of a 32-byte frame, the two checksum bytes included: a frame
    that differs from a frame with a good checksum in exactly one byte has a
    bad checksum. *)
Theorem checksum_detects_one_changed_byte (frame frame' : list Z) (i : nat) :
  length frame = 32%nat -> length frame' = 32%nat ->
  bytes frame -> bytes frame' ->
  (forall j, j <> i -> nth j frame 0 = nth j frame' 0) ->
  nth i frame 0 <> nth i frame' 0 ->
  pmsa003i.checksum frame = Some true ->
  pmsa003i.checksum frame' = Some false.
Proof.
  intros Hlen Hlen' Hb Hb' Hagree Hdiff.
  rewrite (checksum_is_rule frame Hlen Hb).
  rewrite (checksum_is_rule frame' Hlen' Hb').
  unfold checksum_rule. intros Hok. injection Hok as Hok.
  apply Z.eqb_eq in Hok. f_equal. apply Z.eqb_neq.
  destruct (frame_sum_no_wrap frame Hlen Hb) as [Hs _].
  destruct (frame_sum_no_wrap frame' Hlen' Hb') as [Hs' _].
  rewrite Hs in Hok. rewrite Hs'. clear Hs Hs'.
  explode frame Hlen. explode frame' Hlen'. split_bytes.
  unfold be16 in *. cbn [firstn fold_right nth Nat.add] in *.
  do 32 (destruct i as [|i];
         [cbn [nth] in Hdiff; agree_everywhere Hagree; lia|]).
  exfalso. apply Hdiff. destruct i; reflexivity.
Qed.

Lemma checksum_detects_one_changed_byte_witness :
  length flipped_frame = 32%nat /\ bytes flipped_frame /\
  nth 7 GoodSensorData 0 <> nth 7 flipped_frame 0 /\
  pmsa003i.checksum GoodSensorData = Some true /\
  pmsa003i.checksum flipped_frame = Some false.
Proof.
  assert (Hlen : length GoodSensorData = 32%nat) by reflexivity.
  assert (Hlen' : length flipped_frame = 32%nat) by reflexivity.
  assert (Hb : bytes GoodSensorData)
    by (apply bytes_iff; vm_compute; reflexivity).
  assert (Hb' : bytes flipped_frame)
    by (apply bytes_iff; vm_compute; reflexivity).
  assert (Hd : nth 7 GoodSensorData 0 <> nth 7 flipped_frame 0)
    by (vm_compute; discriminate).
  assert (Hok : pmsa003i.checksum GoodSensorData = Some true)
    by (vm_compute; reflexivity).
  assert (Hag : forall j, j <> 7%nat ->
                          nth j GoodSensorData 0 = nth j flipped_frame 0).
  { intros j Hj.
    do 32 (destruct j as [|j]; [try reflexivity; contradiction Hj; reflexivity|]).
    destruct j; reflexivity. }
  split; [exact Hlen'|]. split; [exact Hb'|]. split; [exact Hd|].
  split; [exact Hok|].
  exact (checksum_detects_one_changed_byte
           GoodSensorData flipped_frame 7 Hlen Hlen' Hb Hb' Hag Hd Hok).
Defined.

(** ** One exchange on the bus *)

Lemma conn_Tx_effect (addr : Z) (wr : list Z) (n : nat) (w : World) :
  log (snd (conn_Tx addr wr n w)) = log w ++ [EvTx addr wr n] /\
  bus (snd (conn_Tx addr wr n w)) = tl (bus w) /\
  same_clock_and_files w (snd (conn_Tx addr wr n w)).
Proof.
  unfold conn_Tx, same_clock_and_files.
  destruct (bus w) as [|[r|] rest] eqn:Hbus;
    cbn [snd log bus clock ticks fs emit with_bus tl];
    rewrite ?Hbus; repeat split.
Qed.

Lemma conn_Tx_outcome (addr : Z) (wr : list Z) (n : nat) (w : World) :
  fst (conn_Tx addr wr n w)
  = match bus w with
    | Some r :: _ => Ok (fill n r)
    | _ => Err TransportFailure
    end.
Proof. unfold conn_Tx. destruct (bus w) as [|[r|] rest]; reflexivity. Qed.

Lemma pmsa_word_defined (data : list Z) (i : Z) :
  0 <= i < Z.of_nat (length data) - 1 ->
  exists v, pmsa003i.word data i = Some v.
Proof. exact (sgp30_word_defined data i). Qed.

(** ** Reading the particle sensor, whatever the bus does *)

(** [ReadSensor] in terms of the one exchange it makes. *)
Lemma ReadSensor_run (w : World) :
  snd (pmsa003i.ReadSensor w) = snd (conn_Tx pmsa003i.PMSA003I_ADDR [] 32 w) /\
  fst (pmsa003i.ReadSensor w) <> Panic /\
  (forall e, fst (conn_Tx pmsa003i.PMSA003I_ADDR [] 32 w) = Err e ->
             fst (pmsa003i.ReadSensor w) = Err (pmsa003i.ReadError e)).
Proof.
  pose proof (conn_Tx_outcome pmsa003i.PMSA003I_ADDR [] 32 w) as Hout.
  cbv [pmsa003i.ReadSensor bind wrapping checked ret fail panic].
  destruct (conn_Tx pmsa003i.PMSA003I_ADDR [] 32 w) as [[data|e|] w1];
    cbn [fst snd] in *.
  2:{ split; [reflexivity|]. split; [discriminate|].
      intros e' H. congruence. }
  2:{ destruct (bus w) as [|[r|] rest]; discriminate Hout. }
  assert (Hlen : length data = 32%nat).
  { destruct (bus w) as [|[r|] rest]; try discriminate Hout.
    injection Hout as ->. apply fill_length. }
  assert (Hw : forall i, 0 <= i < 31 ->
                         exists v, pmsa003i.word data i = Some v).
  { intros i Hi. apply pmsa_word_defined. rewrite Hlen. cbn. lia. }
  assert (Hck : exists b, pmsa003i.checksum data = Some b).
  { unfold pmsa003i.checksum.
    destruct (Hw 30 ltac:(lia)) as [v ->]. eauto. }
  destruct Hck as [b ->].
  rewrite !nth_error_in by (rewrite Hlen; cbn; lia).
  destruct (Hw 0 ltac:(lia)) as [v0 ->].
  destruct (Hw 4 ltac:(lia)) as [v4 ->].
  destruct (Hw 6 ltac:(lia)) as [v6 ->].
  destruct (Hw 8 ltac:(lia)) as [v8 ->].
  destruct (Hw 10 ltac:(lia)) as [v10 ->].
  destruct (Hw 12 ltac:(lia)) as [v12 ->].
  destruct (Hw 14 ltac:(lia)) as [v14 ->].
  destruct (Hw 16 ltac:(lia)) as [v16 ->].
  destruct (Hw 18 ltac:(lia)) as [v18 ->].
  destruct (Hw 20 ltac:(lia)) as [v20 ->].
  destruct (Hw 22 ltac:(lia)) as [v22 ->].
  destruct (Hw 24 ltac:(lia)) as [v24 ->].
  destruct (Hw 26 ltac:(lia)) as [v26 ->].
  cbn [Pos.to_nat Pos.iter_op Nat.add].
  destruct (negb (v0 =? 16973)), (negb b), (negb (nth 29 data 0 =? 0));
    cbn [fst snd];
    (split; [reflexivity|split; [discriminate|intros; discriminate]]).
Qed.

(** X4.  Whatever the bus holds, [ReadSensor] never panics and makes exactly
    one exchange, a read of 32 bytes with nothing written, at address 0x12;
    it consumes one outcome of the bus and leaves the clock and the files
    alone; and unless the bus delivers a reply it returns the read error
    around the failure of the transport. *)
Theorem ReadSensor_is_one_read_of_32_bytes (w : World) :
  fst (pmsa003i.ReadSensor w) <> Panic /\
  events_since w (snd (pmsa003i.ReadSensor w)) = [EvTx 0x12 [] 32] /\
  bus (snd (pmsa003i.ReadSensor w)) = tl (bus w) /\
  same_clock_and_files w (snd (pmsa003i.ReadSensor w)) /\
  match bus w with
  | Some _ :: _ => True
  | _ => fst (pmsa003i.ReadSensor w)
         = Err (pmsa003i.ReadError TransportFailure)
  end.
Proof.
  destruct (ReadSensor_run w) as (Hw & Hp & He).
  destruct (conn_Tx_effect pmsa003i.PMSA003I_ADDR [] 32 w) as (Hl & Hb & Hs).
  rewrite Hw. split; [exact Hp|].
  split; [apply events_since_app; exact Hl|].
  split; [exact Hb|]. split; [exact Hs|].
  pose proof (conn_Tx_outcome pmsa003i.PMSA003I_ADDR [] 32 w) as Ho.
  destruct (bus w) as [|[r|] rest]; [apply He, Ho|exact I|apply He, Ho].
Qed.

(** X5.  On a delivered 32-byte frame [ReadSensor] reports the first check
    that fails, in the order start word, checksum, error code, and the error
    for the code carries the byte at offset 29; and the values it returns
    fit their fields: sixteen bits for the twelve words, eight for the
    version. *)
Theorem ReadSensor_reports_first_failed_check (w : World) (frame : list Z)
        (rest : list (option (list Z))) :
  bus w = Some frame :: rest -> length frame = 32%nat -> bytes frame ->
  (be16 frame 0 <> 0x424D ->
   fst (pmsa003i.ReadSensor w) = Err pmsa003i.BadStartWord) /\
  (be16 frame 0 = 0x424D -> pmsa003i.checksum frame = Some false ->
   fst (pmsa003i.ReadSensor w) = Err pmsa003i.BadChecksum) /\
  (be16 frame 0 = 0x424D -> pmsa003i.checksum frame = Some true ->
   nth 29 frame 0 <> 0 ->
   fst (pmsa003i.ReadSensor w)
   = Err (pmsa003i.ErrorCode (nth 29 frame 0))) /\
  (forall r, fst (pmsa003i.ReadSensor w) = Ok r -> results_in_range r).
Proof.
  intros Hbus Hlen Hb.
  rewrite (ReadSensor_frame frame Hlen Hb w rest Hbus).
  rewrite (checksum_is_rule frame Hlen Hb).
  split; [|split; [|split]].
  - intros H. apply Z.eqb_neq in H. rewrite H. reflexivity.
  - intros H Hc. apply Z.eqb_eq in H. rewrite H. injection Hc as ->.
    reflexivity.
  - intros H Hc He. apply Z.eqb_eq in H. rewrite H. injection Hc as ->.
    apply Z.eqb_neq in He. rewrite He. reflexivity.
  - intros r.
    destruct (negb (be16 frame 0 =? 0x424d)); [discriminate|].
    destruct (negb (checksum_rule frame)); [discriminate|].
    destruct (negb (nth 29 frame 0 =? 0)); [discriminate|].
    intros H. injection H as <-. unfold results_in_range, decode.
    cbn [pmsa003i.CfPm1 pmsa003i.CfPm2_5 pmsa003i.CfPm10 pmsa003i.EnvPm1
         pmsa003i.EnvPm2_5 pmsa003i.EnvPm10 pmsa003i.Cnt0_3 pmsa003i.Cnt0_5
         pmsa003i.Cnt1 pmsa003i.Cnt2_5 pmsa003i.Cnt5 pmsa003i.Cnt10
         pmsa003i.Version].
    change (2 ^ 16) with 65536. change (2 ^ 8) with 256.
    split; [|apply bytes_nth; exact Hb].
    repeat (apply Forall_cons; [apply be16_range; exact Hb|]).
    apply Forall_nil.
Qed.

Lemma ReadSensor_reports_first_failed_check_witness :
  bus (playback [Some BadChecksumSensorData] 0 no_files)
  = [Some BadChecksumSensorData] /\
  length BadChecksumSensorData = 32%nat /\ bytes BadChecksumSensorData /\
  fst (pmsa003i.ReadSensor (playback [Some BadChecksumSensorData] 0 no_files))
  = Err pmsa003i.BadChecksum.
Proof.
  assert (Hlen : length BadChecksumSensorData = 32%nat) by reflexivity.
  assert (Hb : bytes BadChecksumSensorData)
    by (apply bytes_iff; vm_compute; reflexivity).
  split; [reflexivity|]. split; [exact Hlen|]. split; [exact Hb|].
  apply (proj1 (proj2 (ReadSensor_reports_first_failed_check
                         (playback [Some BadChecksumSensorData] 0 no_files)
                         BadChecksumSensorData [] eq_refl Hlen Hb)));
    vm_compute; reflexivity.
Defined.

(** X6.  [pmsa003i.New] is one [ReadSensor]: it leaves the world as that
    read leaves it, never panics, fails with the error of the read, and
    produces a handle exactly when the read returns a measurement; so on a
    delivered 32-byte frame a handle is made exactly when the start word is
    0x424D, the checksum holds and the error byte is zero. *)
Theorem pmsa003i_New_is_one_validated_read (w : World) :
  snd (pmsa003i.New w) = snd (pmsa003i.ReadSensor w) /\
  fst (pmsa003i.New w) <> Panic /\
  (forall e, fst (pmsa003i.New w) = Err e <->
             fst (pmsa003i.ReadSensor w) = Err e) /\
  (fst (pmsa003i.New w) = Ok pmsa003i.mkDev <->
   is_ok (fst (pmsa003i.ReadSensor w)) = true) /\
  (forall frame rest,
      bus w = Some frame :: rest -> length frame = 32%nat -> bytes frame ->
      (fst (pmsa003i.New w) = Ok pmsa003i.mkDev <->
       be16 frame 0 = 0x424D /\ frame_sum frame = be16 frame 30 /\
       nth 29 frame 0 = 0)).
Proof.
  assert (Hp := proj1 (proj2 (ReadSensor_run w))).
  assert (Hnew : pmsa003i.New w
                 = match pmsa003i.ReadSensor w with
                   | (Ok _, w1) => (Ok pmsa003i.mkDev, w1)
                   | (Err e, w1) => (Err e, w1)
                   | (Panic, w1) => (Panic, w1)
                   end).
  { cbv [pmsa003i.New bind ret].
    destruct (pmsa003i.ReadSensor w) as [[r|e|] w1]; reflexivity. }
  assert (Hiff : fst (pmsa003i.New w) = Ok pmsa003i.mkDev <->
                 is_ok (fst (pmsa003i.ReadSensor w)) = true).
  { rewrite Hnew. destruct (pmsa003i.ReadSensor w) as [[r|e|] w1];
      cbn [fst is_ok]; split; try reflexivity; discriminate. }
  split; [|split; [|split; [|split]]].
  - rewrite Hnew. destruct (pmsa003i.ReadSensor w) as [[r|e|] w1]; reflexivity.
  - rewrite Hnew. destruct (pmsa003i.ReadSensor w) as [[r|e|] w1];
      cbn [fst] in *; [discriminate|discriminate|].
    exfalso. apply Hp. reflexivity.
  - intros e'. rewrite Hnew.
    destruct (pmsa003i.ReadSensor w) as [[r|e|] w1]; cbn [fst];
      split; intros H; try discriminate H; injection H as ->; reflexivity.
  - exact Hiff.
  - intros frame rest Hbus Hlen Hb. rewrite Hiff.
    rewrite (ReadSensor_frame frame Hlen Hb w rest Hbus).
    unfold checksum_rule.
    destruct (be16 frame 0 =? 0x424d) eqn:Hs; cbn [negb is_ok].
    2:{ apply Z.eqb_neq in Hs. split; [discriminate|]. tauto. }
    apply Z.eqb_eq in Hs.
    destruct (frame_sum frame =? be16 frame 30) eqn:Hc; cbn [negb is_ok].
    2:{ apply Z.eqb_neq in Hc. split; [discriminate|]. tauto. }
    apply Z.eqb_eq in Hc.
    destruct (nth 29 frame 0 =? 0) eqn:He; cbn [negb is_ok].
    2:{ apply Z.eqb_neq in He. split; [discriminate|]. tauto. }
    apply Z.eqb_eq in He. tauto.
Qed.

Lemma pmsa003i_New_is_one_validated_read_witness :
  bus world_good_frame = [Some GoodSensorData] /\
  length GoodSensorData = 32%nat /\ bytes GoodSensorData /\
  fst (pmsa003i.New world_good_frame) = Ok pmsa003i.mkDev.
Proof.
  assert (Hlen : length GoodSensorData = 32%nat) by reflexivity.
  assert (Hb : bytes GoodSensorData)
    by (apply bytes_iff; vm_compute; reflexivity).
  split; [reflexivity|]. split; [exact Hlen|]. split; [exact Hb|].
  pose proof (pmsa003i_New_is_one_validated_read world_good_frame)
    as (_ & _ & _ & _ & Hframe).
  apply (Hframe GoodSensorData [] eq_refl Hlen Hb).
  vm_compute. repeat split.
Defined.

(** ** CRC-8: what a valid group excludes *)

Lemma distinct_NoDup (l : list Z) : distinct l = true -> NoDup l.
Proof.
  induction l as [|x l IH]; cbn [distinct]; intros H; constructor.
  - apply andb_prop in H as [H _]. intros Hin.
    apply negb_true_iff in H.
    assert (Hex : existsb (Z.eqb x) l = true).
    { apply existsb_exists. exists x. split; [exact Hin|apply Z.eqb_refl]. }
    congruence.
  - apply IH. apply andb_prop in H as [_ H]. exact H.
Qed.

Lemma CRC8_SGP30_table_distinct :
  distinct (crc8.data sgp30.CRC8_SGP30) = true.
Proof. vm_compute. reflexivity. Qed.

Lemma lookup_injective (i j : Z) :
  is_byte i -> is_byte j ->
  crc8.lookup sgp30.CRC8_SGP30 i = crc8.lookup sgp30.CRC8_SGP30 j -> i = j.
Proof.
  unfold is_byte, crc8.lookup. intros Hi Hj H.
  pose proof (distinct_NoDup _ CRC8_SGP30_table_distinct) as Hnd.
  rewrite (NoDup_nth _ 0) in Hnd.
  assert (Hlen : length (crc8.data sgp30.CRC8_SGP30) = 256%nat)
    by reflexivity.
  specialize (Hnd (Z.to_nat i) (Z.to_nat j)).
  rewrite Hlen in Hnd. specialize (Hnd ltac:(lia) ltac:(lia) H). lia.
Qed.

Lemma lxor_cancel_l (x a b : Z) : Z.lxor x a = Z.lxor x b -> a = b.
Proof.
  intros H. apply (f_equal (Z.lxor x)) in H.
  rewrite <- !Z.lxor_assoc, Z.lxor_nilpotent, !Z.lxor_0_l in H. exact H.
Qed.

Lemma Checksum_pair (hi lo : Z) :
  crc8.Checksum [hi; lo] sgp30.CRC8_SGP30
  = crc8.lookup sgp30.CRC8_SGP30
      (Z.lxor (crc8.lookup sgp30.CRC8_SGP30 (Z.lxor 0xFF hi)) lo).
Proof.
  change [hi; lo] with ([hi] ++ [lo]). rewrite Checksum_snoc.
  change [hi] with ([] ++ [hi]). rewrite Checksum_snoc. reflexivity.
Qed.

(** The CRC-8 of two data bytes determines either byte from the other. *)
Lemma Checksum_pair_injective (hi lo hi' lo' : Z) :
  is_byte hi -> is_byte lo -> is_byte hi' -> is_byte lo' ->
  hi = hi' \/ lo = lo' ->
  crc8.Checksum [hi; lo] sgp30.CRC8_SGP30
  = crc8.Checksum [hi'; lo'] sgp30.CRC8_SGP30 ->
  hi = hi' /\ lo = lo'.
Proof.
  intros Hh Hl Hh' Hl' Hsame. rewrite !Checksum_pair. intros H.
  assert (Hff : is_byte 0xFF) by (unfold is_byte; lia).
  apply lookup_injective in H;
    try (apply lxor_byte; [apply lookup_byte|assumption]).
  destruct Hsame as [<- | <-].
  - split; [reflexivity|]. apply lxor_cancel_l in H. exact H.
  - split; [|reflexivity].
    rewrite (Z.lxor_comm _ lo), (Z.lxor_comm _ lo) in H.
    apply lxor_cancel_l in H.
    apply lookup_injective in H; try (apply lxor_byte; assumption).
    apply lxor_cancel_l in H. exact H.
Qed.

(** X7.  [checkCRC8] rejects the empty slice; for two data bytes exactly one
    check byte makes a valid group; and a change of any single byte of a
    valid group, data or check, is detected. *)
Theorem checkCRC8_detects_one_changed_byte :
  sgp30.checkCRC8 [] = false /\
  (forall hi lo, exists crc,
      is_byte crc /\
      forall c, is_byte c ->
                (sgp30.checkCRC8 [hi; lo; c] = true <-> c = crc)) /\
  (forall a b c a' b' c',
      bytes [a; b; c] -> bytes [a'; b'; c'] ->
      (a = a' /\ b = b') \/ (a = a' /\ c = c') \/ (b = b' /\ c = c') ->
      [a; b; c] <> [a'; b'; c'] ->
      sgp30.checkCRC8 [a; b; c] = true ->
      sgp30.checkCRC8 [a'; b'; c'] = false).
Proof.
  split; [vm_compute; reflexivity|]. split.
  - intros hi lo. exists (crc8.Checksum [hi; lo] sgp30.CRC8_SGP30).
    split; [apply Checksum_byte; discriminate|].
    intros c Hc. apply group_valid_iff_check_byte. exact Hc.
  - intros a b c a' b' c' Hg Hg' Hsame Hneq Hok. split_bytes.
    apply group_valid_iff_check_byte in Hok; [|assumption].
    apply not_true_is_false. intros Hok'.
    apply group_valid_iff_check_byte in Hok'; [|assumption].
    apply Hneq.
    destruct Hsame as [[-> ->] | [[-> ->] | [-> ->]]].
    + congruence.
    + destruct (Checksum_pair_injective a' b a' b') as [_ ->];
        auto; congruence.
    + destruct (Checksum_pair_injective a b' a' b') as [-> _];
        auto; congruence.
Qed.

Lemma checkCRC8_detects_one_changed_byte_witness :
  bytes [0x01; 0x9e; 0x53] /\ bytes [0x01; 0x9f; 0x53] /\
  sgp30.checkCRC8 [0x01; 0x9e; 0x53] = true /\
  sgp30.checkCRC8 [0x01; 0x9f; 0x53] = false.
Proof.
  assert (Hg : bytes [0x01; 0x9e; 0x53])
    by (apply bytes_iff; vm_compute; reflexivity).
  assert (Hg' : bytes [0x01; 0x9f; 0x53])
    by (apply bytes_iff; vm_compute; reflexivity).
  assert (Hok : sgp30.checkCRC8 [0x01; 0x9e; 0x53] = true)
    by (vm_compute; reflexivity).
  split; [exact Hg|]. split; [exact Hg'|]. split; [exact Hok|].
  refine (proj2 (proj2 checkCRC8_detects_one_changed_byte)
                0x01 0x9e 0x53 0x01 0x9f 0x53 Hg Hg' _ _ Hok).
  - right. left. split; reflexivity.
  - discriminate.
Defined.

(** ** The gas sensor: the commands that are one exchange *)

Lemma conn_Tx_length (addr : Z) (wr : list Z) (n : nat) (w w1 : World)
      (data : list Z) :
  conn_Tx addr wr n w = (Ok data, w1) -> length data = n.
Proof.
  unfold conn_Tx. destruct (bus w) as [|[r|] rest]; try discriminate.
  intros H. injection H as <- _. apply fill_length.
Qed.

Lemma conn_Tx_no_panic (addr : Z) (wr : list Z) (n : nat) (w : World) :
  fst (conn_Tx addr wr n w) <> Panic.
Proof.
  rewrite conn_Tx_outcome. destruct (bus w) as [|[r|] rest]; discriminate.
Qed.

(** A call that leaves the world as its one exchange leaves it, does not
    panic and wraps the failure of the transport, is a single exchange. *)
Lemma single_exchange_intro {A : Type} (op : M World sgp30.error A)
      (cmd : list Z) (n : nat) (tx_error : bus_error -> sgp30.error)
      (w : World) :
  snd (op w) = snd (conn_Tx sgp30.SGP30_ADDR cmd n w) ->
  fst (op w) <> Panic ->
  (forall e, fst (conn_Tx sgp30.SGP30_ADDR cmd n w) = Err e ->
             fst (op w) = Err (tx_error e)) ->
  single_exchange op cmd n tx_error w.
Proof.
  intros Hw Hp He. unfold single_exchange.
  destruct (conn_Tx_effect sgp30.SGP30_ADDR cmd n w) as (Hl & Hb & Hs).
  rewrite Hw. split; [exact Hp|].
  split; [apply events_since_app; exact Hl|].
  split; [exact Hb|]. split; [exact Hs|].
  pose proof (conn_Tx_outcome sgp30.SGP30_ADDR cmd n w) as Ho.
  destruct (bus w) as [|[r|] rest]; [apply He, Ho|exact I|apply He, Ho].
Qed.

Lemma GetSerialNumber_single (w : World) :
  single_exchange sgp30.GetSerialNumber [0x36; 0x82] 9 sgp30.SerialNumberTx w.
Proof.
  pose proof (conn_Tx_no_panic sgp30.SGP30_ADDR [0x36; 0x82] 9 w) as Hnp.
  apply single_exchange_intro; run_sgp30;
    destruct (conn_Tx sgp30.SGP30_ADDR [54; 130] 9 w) as [[data|e|] w1] eqn:Htx;
    cbn [fst snd] in *; try reflexivity; try discriminate;
    try (exfalso; apply Hnp; reflexivity);
    try (intros e' H; congruence).
  all: pose proof (conn_Tx_length _ _ _ _ _ _ Htx) as Hlen.
  all: destruct (sgp30_word_defined data 0) as [a0 ->]; [rewrite Hlen; lia|].
  all: destruct (sgp30_word_defined data 3) as [a3 ->]; [rewrite Hlen; lia|].
  all: destruct (sgp30_word_defined data 6) as [a6 ->]; [rewrite Hlen; lia|].
  all: destruct (sgp30.checkCRC8 (sub data 0 3)),
                (sgp30.checkCRC8 (sub data 3 6)),
                (sgp30.checkCRC8 (sub data 6 9));
    cbn [negb fst snd]; try reflexivity; discriminate.
Qed.

Lemma GetFeatures_single (w : World) :
  single_exchange sgp30.GetFeatures [0x20; 0x2f] 3 sgp30.FeaturesTx w.
Proof.
  pose proof (conn_Tx_no_panic sgp30.SGP30_ADDR [0x20; 0x2f] 3 w) as Hnp.
  apply single_exchange_intro; run_sgp30;
    destruct (conn_Tx sgp30.SGP30_ADDR [32; 47] 3 w) as [[data|e|] w1] eqn:Htx;
    cbn [fst snd] in *; try reflexivity; try discriminate;
    try (exfalso; apply Hnp; reflexivity);
    try (intros e' H; congruence).
  all: pose proof (conn_Tx_length _ _ _ _ _ _ Htx) as Hlen.
  all: rewrite !nth_error_in by (rewrite Hlen; lia).
  all: destruct (sgp30.checkCRC8 (sub data 0 3));
    cbn [negb fst snd]; try reflexivity; discriminate.
Qed.

Lemma StartMeasurements_single (w : World) :
  single_exchange sgp30.StartMeasurements [0x20; 0x03] 0 sgp30.StartTx w.
Proof.
  pose proof (conn_Tx_no_panic sgp30.SGP30_ADDR [0x20; 0x03] 0 w) as Hnp.
  apply single_exchange_intro; run_sgp30;
    destruct (conn_Tx sgp30.SGP30_ADDR [32; 3] 0 w) as [[data|e|] w1] eqn:Htx;
    cbn [fst snd] in *; try reflexivity; try discriminate;
    try (exfalso; apply Hnp; reflexivity);
    try (intros e' H; congruence).
Qed.

Lemma ReadBaseline_single (w : World) :
  single_exchange sgp30.ReadBaseline [0x20; 0x15] 6 sgp30.BaselineTx w.
Proof.
  pose proof (conn_Tx_no_panic sgp30.SGP30_ADDR [0x20; 0x15] 6 w) as Hnp.
  apply single_exchange_intro; run_sgp30;
    destruct (conn_Tx sgp30.SGP30_ADDR [32; 21] 6 w) as [[data|e|] w1] eqn:Htx;
    cbn [fst snd] in *; try reflexivity; try discriminate;
    try (exfalso; apply Hnp; reflexivity);
    try (intros e' H; congruence).
  all: destruct (sgp30.checkCRC8 (sub data 0 3)),
                (sgp30.checkCRC8 (sub data 3 6));
    cbn [negb fst snd]; try reflexivity; discriminate.
Qed.

(** X8.  Whatever the bus holds, each of [GetSerialNumber], [GetFeatures],
    [StartMeasurements] and [ReadBaseline] never panics and makes exactly
    one exchange at address 0x58, with its own command and reply length
    (36 82 / 9, 20 2F / 3, 20 03 / 0, 20 15 / 6); it leaves the clock and the
    files alone, and unless the bus delivers a reply it returns its own
    transport error.  [StartMeasurements] succeeds exactly when the bus
    delivers. *)
Theorem sgp30_commands_are_single_exchanges (w : World) :
  single_exchange sgp30.GetSerialNumber [0x36; 0x82] 9 sgp30.SerialNumberTx w /\
  single_exchange sgp30.GetFeatures [0x20; 0x2f] 3 sgp30.FeaturesTx w /\
  single_exchange sgp30.StartMeasurements [0x20; 0x03] 0 sgp30.StartTx w /\
  single_exchange sgp30.ReadBaseline [0x20; 0x15] 6 sgp30.BaselineTx w /\
  fst (sgp30.StartMeasurements w)
  = match bus w with
    | Some _ :: _ => Ok tt
    | _ => Err (sgp30.StartTx TransportFailure)
    end.
Proof.
  split; [apply GetSerialNumber_single|].
  split; [apply GetFeatures_single|].
  split; [apply StartMeasurements_single|].
  split; [apply ReadBaseline_single|].
  run_sgp30. unfold conn_Tx. destruct (bus w) as [|[r|] rest]; reflexivity.
Qed.

(** X9.  For a delivered reply of three bytes, [GetFeatures] returns the
    first two bytes, product type and product version, exactly when the
    third is their CRC-8, and otherwise the CRC error that carries the three
    bytes; the bytes it returns are the bytes of the reply. *)
Theorem GetFeatures_returns_the_data_bytes (w : World) (t v c : Z)
        (rest : list (option (list Z))) :
  bus w = Some [t; v; c] :: rest -> bytes [t; v; c] ->
  (c = crc8.Checksum [t; v] sgp30.CRC8_SGP30 ->
   fst (sgp30.GetFeatures w) = Ok (t, v)) /\
  (c <> crc8.Checksum [t; v] sgp30.CRC8_SGP30 ->
   fst (sgp30.GetFeatures w) = Err (sgp30.FeaturesCRC [t; v; c])).
Proof.
  intros Hbus Hb. split_bytes.
  rewrite (GetFeatures_reply w [t; v; c] rest Hbus eq_refl).
  change (sub [t; v; c] 0 3) with [t; v; c]. cbn [nth].
  pose proof (group_valid_iff_check_byte t v c Hb1) as Hiff.
  destruct (sgp30.checkCRC8 [t; v; c]).
  - split; [reflexivity|]. intros Hne. exfalso. apply Hne, Hiff. reflexivity.
  - split; [|reflexivity]. intros Heq. apply Hiff in Heq. discriminate.
Qed.

Lemma GetFeatures_returns_the_data_bytes_witness :
  bus (playback [Some GoodFeaturesData] 0 no_files)
  = [Some [0x00; 0x22; 0x65]] /\
  bytes [0x00; 0x22; 0x65] /\
  fst (sgp30.GetFeatures (playback [Some GoodFeaturesData] 0 no_files))
  = Ok (0x00, 0x22).
Proof.
  assert (Hb : bytes [0x00; 0x22; 0x65])
    by (apply bytes_iff; vm_compute; reflexivity).
  split; [reflexivity|]. split; [exact Hb|].
  apply (proj1 (GetFeatures_returns_the_data_bytes
                  (playback [Some GoodFeaturesData] 0 no_files)
                  0x00 0x22 0x65 [] eq_refl Hb)).
  vm_compute. reflexivity.
Defined.

(** ** The gas sensor: every way a measurement can go *)

(** The case analysis of a call of [ReadAirQuality] on a handle and a world
    given by their fields: what the bus holds, which groups are valid,
    whether the autosave is due, whether the file can be written. *)
Ltac raq_reply reply :=
  let a0 := fresh "a0" in
  let a3 := fresh "a3" in
  destruct (sgp30_word_defined (fill 6 reply) 0) as [a0 ->];
  [rewrite fill_length; lia|];
  destruct (sgp30_word_defined (fill 6 reply) 3) as [a3 ->];
  [rewrite fill_length; lia|];
  destruct (sgp30.checkCRC8 (sub (fill 6 reply) 0 3)) eqn:?Hg1;
  [destruct (sgp30.checkCRC8 (sub (fill 6 reply) 3 6)) eqn:?Hg2|];
  cbn [negb].

Ltac raq_baseline bl :=
  destruct (sgp30.checkCRC8 (sub (fill 6 bl) 0 3)) eqn:?Hb1;
  [destruct (sgp30.checkCRC8 (sub (fill 6 bl) 3 6)) eqn:?Hb2|];
  cbn [negb].

Lemma skipn_log (lg evs : list event) : skipn (length lg) (lg ++ evs) = evs.
Proof. rewrite skipn_app, skipn_all, Nat.sub_diag. reflexivity. Qed.

Ltac trace_norm :=
  cbn [fst snd log bus clock ticks fs
       sgp30.baselineFile sgp30.baselineInterval sgp30.lastSave];
  rewrite <- ?app_assoc; cbn [app]; rewrite ?skipn_log.




(** X11.  When [ReadAirQuality] returns values on a reply of six bytes, the
    values are the big-endian words at offsets 0 and 3 of the reply, they
    fit 16 bits, and bytes 2 and 5 of the reply are the CRC-8 of the two
    bytes before them. *)
Theorem ReadAirQuality_returns_the_two_words (d d' : sgp30.Dev) (w w' : World)
        (co2 tvoc : Z) (request_reply reply : list Z)
        (rest : list (option (list Z))) :
  sgp30.ReadAirQuality (d, w) = (Ok (co2, tvoc), (d', w')) ->
  bus w = Some request_reply :: Some reply :: rest ->
  length reply = 6%nat -> bytes reply ->
  co2 = be16 reply 0 /\ tvoc = be16 reply 3 /\
  0 <= co2 < 2 ^ 16 /\ 0 <= tvoc < 2 ^ 16 /\
  nth 2 reply 0
  = crc8.Checksum [nth 0 reply 0; nth 1 reply 0] sgp30.CRC8_SGP30 /\
  nth 5 reply 0
  = crc8.Checksum [nth 3 reply 0; nth 4 reply 0] sgp30.CRC8_SGP30.
Proof.
  intros Hrun Hbus Hlen Hb.
  destruct (ReadAirQuality_ok_inv d d' w w' (co2, tvoc) Hrun)
    as (r0 & reply' & rest' & Hbus' & Hv & H0 & H3 & _).
  rewrite Hbus in Hbus'. injection Hbus' as _ <- _.
  rewrite (fill_exact _ _ Hlen) in *. cbn [fst snd] in *.
  rewrite sgp30_word_be16 in H0, H3 by (try assumption; rewrite Hlen; lia).
  injection H0 as <-. injection H3 as <-.
  change (2 ^ 16) with 65536.
  split; [reflexivity|]. split; [reflexivity|].
  split; [apply be16_range; exact Hb|].
  split; [apply be16_range; exact Hb|].
  rewrite groups_2 in Hv. cbn [all_valid forallb] in Hv.
  apply andb_prop in Hv as [Hv1 Hv2]. apply andb_prop in Hv2 as [Hv2 _].
  explode reply Hlen. split_bytes. cbn [nth].
  split; apply group_valid_iff_check_byte; assumption.
Qed.

Lemma ReadAirQuality_returns_the_two_words_witness :
  fst (sgp30.ReadAirQuality (saving_handle, world_autosave_boundary))
  = Ok (414, 13) /\
  length GoodAirQualityData = 6%nat /\
  be16 GoodAirQualityData 0 = 414 /\ be16 GoodAirQualityData 3 = 13.
Proof.
  set (r := sgp30.ReadAirQuality (saving_handle, world_autosave_boundary)).
  assert (Hfst : fst r = Ok (414, 13)) by (vm_compute; reflexivity).
  assert (Hr : r = (Ok (414, 13), (fst (snd r), snd (snd r))))
    by (rewrite <- Hfst; apply triple_eta).
  assert (Hb : bytes GoodAirQualityData)
    by (repeat constructor; unfold is_byte; lia).
  pose proof (ReadAirQuality_returns_the_two_words
                saving_handle (fst (snd r)) world_autosave_boundary
                (snd (snd r)) 414 13 [] GoodAirQualityData
                [Some GoodBaselineData] Hr eq_refl eq_refl Hb)
    as (H0 & H3 & _).
  split; [exact Hfst|]. split; [reflexivity|].
  split; [exact (eq_sym H0)|exact (eq_sym H3)].
Defined.

(** X12.  When the autosave is not due, [ReadAirQuality] leaves the handle
    and the files as they were, reads the clock at most once, and does
    nothing on the bus beyond the air-quality exchange, whatever the call
    returns.  On a handle without a path the autosave is never due and the
    clock is not read at all. *)
Theorem ReadAirQuality_not_due_only_reads (d : sgp30.Dev) (w : World) :
  (autosave_due d w = false ->
   fst (snd (sgp30.ReadAirQuality (d, w))) = d /\
   fs (snd (snd (sgp30.ReadAirQuality (d, w)))) = fs w /\
   (ticks (snd (snd (sgp30.ReadAirQuality (d, w)))) <= S (ticks w))%nat /\
   (events_since w (snd (snd (sgp30.ReadAirQuality (d, w))))
    = [EvTx 0x58 [0x20; 0x08] 0] \/
    events_since w (snd (snd (sgp30.ReadAirQuality (d, w)))) = aq_events)) /\
  (String.length (sgp30.baselineFile d) = 0%nat ->
   autosave_due d w = false /\
   ticks (snd (snd (sgp30.ReadAirQuality (d, w)))) = ticks w).
Proof.
  destruct w as [b c t f ro sl lg], d as [file iv ls].
  unfold events_since, autosave_due, elapsed.
  cbn [log clock ticks sgp30.baselineFile sgp30.baselineInterval
       sgp30.lastSave].
  run_sgp30. run_world.
  split.
  - intros Hdue.
    destruct b as [|[r0|] [|[reply|] rest]].
    3:{ raq_reply reply.
        - destruct (0 <? String.length file)%nat;
            [destruct (iv <=? c t - ls); [discriminate Hdue|]|].
          all: trace_norm; repeat split; first [lia | right; reflexivity].
        - trace_norm; repeat split; first [lia | right; reflexivity].
        - trace_norm; repeat split; first [lia | right; reflexivity]. }
    all: trace_norm; repeat split;
      first [lia | left; reflexivity | right; reflexivity].
  - intros Hlen.
    assert (Hz : (0 <? String.length file)%nat = false)
      by (rewrite Hlen; reflexivity).
    rewrite Hz. split; [reflexivity|].
    destruct b as [|[r0|] [|[reply|] rest]].
    3:{ raq_reply reply; rewrite ?Hz; reflexivity. }
    all: reflexivity.
Qed.

Lemma ReadAirQuality_not_due_only_reads_witness :
  autosave_due saving_handle world_before_interval = false /\
  fst (snd (sgp30.ReadAirQuality (saving_handle, world_before_interval)))
  = saving_handle /\
  String.length (sgp30.baselineFile (sgp30.mkDev "" (30 * second) 0))
  = 0%nat /\
  ticks (snd (snd (sgp30.ReadAirQuality
                     (sgp30.mkDev "" (30 * second) 0, world_before_interval))))
  = ticks world_before_interval.
Proof.
  assert (Hdue : autosave_due saving_handle world_before_interval = false)
    by (vm_compute; reflexivity).
  assert (Hlen : String.length
                   (sgp30.baselineFile (sgp30.mkDev "" (30 * second) 0))
                 = 0%nat) by reflexivity.
  pose proof (proj1 (ReadAirQuality_not_due_only_reads
                       saving_handle world_before_interval) Hdue)
    as (Hd & _).
  pose proof (proj2 (ReadAirQuality_not_due_only_reads
                       (sgp30.mkDev "" (30 * second) 0) world_before_interval)
                Hlen) as (_ & Ht).
  split; [exact Hdue|]. split; [exact Hd|]. split; [exact Hlen|exact Ht].
Defined.

(** ** The gas sensor: the autosave and the files *)

Lemma fs_put_other (f : string -> option (list Z)) (path p : string)
      (data : list Z) :
  p <> path -> fs_put f path data p = f p.
Proof.
  intros H. unfold fs_put. apply String.eqb_neq in H. rewrite H. reflexivity.
Qed.

Lemma fs_put_same (f : string -> option (list Z)) (path : string)
      (data : list Z) :
  fs_put f path data path = Some data.
Proof. unfold fs_put. rewrite String.eqb_refl. reflexivity. Qed.

(** X13.  [ReadAirQuality] changes no file but the one of the handle.  That
    file is left as it was, or the call returns values and has written six
    bytes that are a valid baseline: the file then holds them when the write
    succeeds, and the bytes written before the failure, possibly none or
    fewer than six, when the write fails after the file was opened.  A write
    that fails is not reported: the result, the handle and the events of
    the call are the same whatever the faults of writing are. *)
Theorem ReadAirQuality_writes_only_the_baseline_file (d : sgp30.Dev)
        (w : World) :
  (forall p, p <> sgp30.baselineFile d ->
             fs (snd (snd (sgp30.ReadAirQuality (d, w)))) p = fs w p) /\
  (fs (snd (snd (sgp30.ReadAirQuality (d, w)))) (sgp30.baselineFile d)
   = fs w (sgp30.baselineFile d) \/
   exists b,
     length b = 6%nat /\ all_valid (groups 2 b) = true /\
     is_ok (fst (sgp30.ReadAirQuality (d, w))) = true /\
     fs (snd (snd (sgp30.ReadAirQuality (d, w)))) (sgp30.baselineFile d)
     = match faults w (sgp30.baselineFile d) with
       | None => Some b
       | Some (WriteFails written) => Some (firstn written b)
       | Some OpenFails => fs w (sgp30.baselineFile d)
       end) /\
  (forall ft,
      fst (sgp30.ReadAirQuality (d, with_faults w ft))
      = fst (sgp30.ReadAirQuality (d, w)) /\
      fst (snd (sgp30.ReadAirQuality (d, with_faults w ft)))
      = fst (snd (sgp30.ReadAirQuality (d, w))) /\
      log (snd (snd (sgp30.ReadAirQuality (d, with_faults w ft))))
      = log (snd (snd (sgp30.ReadAirQuality (d, w))))).
Proof.
  destruct w as [b c t f ro sl lg], d as [file iv ls].
  unfold with_faults.
  cbn [bus clock ticks fs faults slack log sgp30.baselineFile].
  run_sgp30. run_world.
  destruct b as [|[r0|] [|[reply|] rest]].
  3:{ raq_reply reply.
      - destruct (0 <? String.length file)%nat; [destruct (iv <=? c t - ls)|].
        + destruct rest as [|[bl|] rest'].
          2:{ raq_baseline bl.
              - split; [|split].
                + intros p Hp.
                  destruct (ro file) as [[|written]|]; cbn [fst snd fs];
                    [reflexivity|apply fs_put_other; exact Hp..].
                + right. exists (fill 6 bl).
                  split; [apply fill_length|].
                  split; [rewrite groups_2; cbn [all_valid forallb];
                          rewrite Hb1, Hb2; reflexivity|].
                  destruct (ro file) as [[|written]|];
                    cbn [fst snd fs is_ok];
                    (split; [reflexivity|]);
                    [reflexivity|apply fs_put_same..].
                + intros ft.
                  destruct (ro file) as [[|written]|],
                           (ft file) as [[|written']|];
                    repeat split.
              - repeat split; left; reflexivity.
              - repeat split; left; reflexivity. }
          all: repeat split; left; reflexivity.
        + repeat split; left; reflexivity.
        + repeat split; left; reflexivity.
      - repeat split; left; reflexivity.
      - repeat split; left; reflexivity. }
  all: repeat split; left; reflexivity.
Qed.

(** A write that breaks after four bytes: the call returns its values and
    the file is left with four of the six bytes. *)
Lemma ReadAirQuality_broken_write_leaves_part :
  fst (sgp30.ReadAirQuality (saving_handle, world_write_breaks))
  = Ok (414, 13) /\
  fs (snd (snd (sgp30.ReadAirQuality (saving_handle, world_write_breaks))))
     "baseline"%string
  = Some [0x88; 0xa1; 0x58; 0x8d].
Proof. split; vm_compute; reflexivity. Qed.

Lemma ReadAirQuality_writes_only_the_baseline_file_witness :
  "other"%string <> sgp30.baselineFile saving_handle /\
  fs (snd (snd (sgp30.ReadAirQuality
                  (saving_handle, world_autosave_boundary)))) "other"%string
  = fs world_autosave_boundary "other"%string.
Proof.
  assert (Hne : "other"%string <> sgp30.baselineFile saving_handle)
    by discriminate.
  split; [exact Hne|].
  exact (proj1 (ReadAirQuality_writes_only_the_baseline_file
                  saving_handle world_autosave_boundary)
               "other"%string Hne).
Defined.

(** X14.  After a call of [ReadAirQuality] on which the autosave was due
    and which returned values, the handle's timestamp is the clock reading
    taken after the interval test (the second of the call), and on the next
    call the autosave is due again exactly when the interval has passed
    between that reading and the next one. *)
Theorem autosave_waits_for_the_interval (d d1 : sgp30.Dev) (w w1 : World)
        (v : Z * Z) :
  sgp30.ReadAirQuality (d, w) = (Ok v, (d1, w1)) ->
  autosave_due d w = true ->
  sgp30.lastSave d1 = clock w (S (ticks w)) /\
  clock w1 = clock w /\ ticks w1 = S (S (ticks w)) /\
  (autosave_due d1 w1 = true <->
   sgp30.baselineInterval d
   <= clock w (S (S (ticks w))) - clock w (S (ticks w))).
Proof.
  destruct w as [b c t f ro sl lg], d as [file iv ls].
  unfold autosave_due, elapsed.
  cbn [clock ticks sgp30.baselineFile sgp30.baselineInterval sgp30.lastSave].
  intros H Hdue. apply andb_prop in Hdue as [Hfile Hiv].
  run_sgp30_in H. run_world_in H.
  destruct b as [|[r0|] [|[reply|] rest]]; try discriminate H.
  revert H. raq_reply reply; try discriminate.
  rewrite Hfile, Hiv.
  destruct rest as [|[bl|] rest']; try discriminate.
  raq_baseline bl; try discriminate.
  intros H.
  assert (H' : d1 = sgp30.mkDev file iv (c (S t)) /\
               clock w1 = c /\ ticks w1 = S (S t)).
  { destruct (ro file) as [[|written]|]; injection H as _ <- <-; repeat split. }
  destruct H' as (-> & -> & ->).
  cbn [sgp30.baselineFile sgp30.baselineInterval sgp30.lastSave].
  rewrite Hfile. cbn [andb]. rewrite Z.leb_le. repeat split; tauto.
Qed.

Lemma autosave_waits_for_the_interval_witness :
  fst (sgp30.ReadAirQuality (saving_handle, world_autosave_boundary))
  = Ok (414, 13) /\
  autosave_due saving_handle world_autosave_boundary = true /\
  sgp30.lastSave
    (fst (snd (sgp30.ReadAirQuality
                 (saving_handle, world_autosave_boundary))))
  = clock world_autosave_boundary 1.
Proof.
  set (r := sgp30.ReadAirQuality (saving_handle, world_autosave_boundary)).
  assert (Hfst : fst r = Ok (414, 13)) by (vm_compute; reflexivity).
  assert (Hr : r = (Ok (414, 13), (fst (snd r), snd (snd r))))
    by (rewrite <- Hfst; apply triple_eta).
  assert (Hdue : autosave_due saving_handle world_autosave_boundary = true)
    by (vm_compute; reflexivity).
  pose proof (autosave_waits_for_the_interval
                saving_handle (fst (snd r)) world_autosave_boundary
                (snd (snd r)) (414, 13) Hr Hdue) as (Hsave & _).
  split; [exact Hfst|]. split; [exact Hdue|exact Hsave].
Defined.

(** ** The gas sensor: construction and the stored baseline *)

(** X15.  When the serial-number request fails, on the bus or on a CRC,
    [New] returns that error and has done nothing else: one exchange, no
    reading of the clock, no change of a file, whatever path and interval
    were passed. *)
Theorem New_stops_at_failed_probe (path : string) (interval : Z) (w : World)
        (e : sgp30.error) :
  fst (sgp30.GetSerialNumber w) = Err e ->
  fst (sgp30.New path interval w) = Err e /\
  events_since w (snd (sgp30.New path interval w))
  = [EvTx 0x58 [0x36; 0x82] 9] /\
  same_clock_and_files w (snd (sgp30.New path interval w)).
Proof.
  intros He.
  destruct (GetSerialNumber_single w) as (_ & Hev & _ & Hsame & _).
  cbv [sgp30.New bind].
  destruct (sgp30.GetSerialNumber w) as [[v|e'|] w1];
    cbn [fst snd] in *; try discriminate He.
  injection He as ->. repeat split; try assumption; apply Hsame.
Qed.

Lemma New_stops_at_failed_probe_witness :
  fst (sgp30.GetSerialNumber world_start_fails)
  = Err (sgp30.SerialNumberTx TransportFailure) /\
  fst (sgp30.New "baseline" (30 * second) world_start_fails)
  = Err (sgp30.SerialNumberTx TransportFailure).
Proof.
  assert (He : fst (sgp30.GetSerialNumber world_start_fails)
               = Err (sgp30.SerialNumberTx TransportFailure))
    by reflexivity.
  split; [exact He|].
  exact (proj1 (New_stops_at_failed_probe
                  "baseline" (30 * second) world_start_fails
                  (sgp30.SerialNumberTx TransportFailure) He)).
Defined.

(** X16.  On a device that answers the serial-number request, [New] with
    an empty path, or with a path at which no file exists, returns a handle
    after that one exchange and sends no baseline.  With an empty path the
    interval is dropped and the clock is not read; with a path the handle
    carries the path, the interval and the time of construction, and the
    missing file is not an error. *)
Theorem New_without_stored_baseline (path : string) (interval : Z)
        (w : World) (serial : Z) :
  fst (sgp30.GetSerialNumber w) = Ok serial ->
  String.length path = 0%nat \/ fs w path = None ->
  fst (sgp30.New path interval w)
  = Ok (if (0 <? String.length path)%nat
        then sgp30.mkDev path interval (clock w (ticks w))
        else sgp30.mkDev "" 0 0) /\
  events_since w (snd (sgp30.New path interval w))
  = [EvTx 0x58 [0x36; 0x82] 9] /\
  fs (snd (sgp30.New path interval w)) = fs w /\
  ticks (snd (sgp30.New path interval w))
  = (if (0 <? String.length path)%nat then S (ticks w) else ticks w).
Proof.
  intros Hok Hnone.
  destruct (GetSerialNumber_single w)
    as (_ & Hev & _ & (Hclock & Hticks & Hfs) & _).
  cbv [sgp30.New bind effect attempt ret].
  destruct (sgp30.GetSerialNumber w) as [[v|e'|] w1];
    cbn [fst snd] in *; try discriminate Hok.
  destruct (0 <? String.length path)%nat eqn:Hpath.
  - destruct Hnone as [Hz|Hnone];
      [rewrite Hz in Hpath; discriminate Hpath|].
    unfold time_Now, ioutil_ReadFile. cbn [fs with_ticks].
    rewrite Hfs, Hnone. cbn [fst snd fs ticks with_ticks].
    rewrite Hclock, Hticks. repeat split; assumption.
  - cbn [fst snd]. repeat split; assumption.
Qed.

Lemma New_without_stored_baseline_witness :
  fst (sgp30.GetSerialNumber world_serial_0157) = Ok 0x15700ACA2 /\
  fs world_serial_0157 "baseline"%string = None /\
  fst (sgp30.New "baseline" (30 * second) world_serial_0157)
  = Ok (sgp30.mkDev "baseline" (30 * second) 0).
Proof.
  assert (Hok : fst (sgp30.GetSerialNumber world_serial_0157)
                = Ok 0x15700ACA2) by (vm_compute; reflexivity).
  assert (Hfs : fs world_serial_0157 "baseline"%string = None)
    by reflexivity.
  split; [exact Hok|]. split; [exact Hfs|].
  exact (proj1 (New_without_stored_baseline
                  "baseline" (30 * second) world_serial_0157 0x15700ACA2
                  Hok (or_intror Hfs))).
Defined.

(** X17.  [SetBaseline] sends all or nothing.  When the slice has a
    capacity of at least six bytes and both groups of its first six bytes
    pass CRC-8, it makes the two exchanges, start and baseline, and does not
    panic.  Otherwise it leaves the world untouched and does not succeed;
    it panics exactly when the capacity is below three, or is below six
    while the first group is valid.  The bounds are those of the capacity,
    not of the length. *)
Theorem SetBaseline_sends_all_or_nothing (b : slice) (w : World) :
  if ((6 <=? cap b)%nat && all_valid (groups 2 (elems b ++ spare b)))%bool
  then events_since w (snd (sgp30.SetBaseline b w))
       = [EvTx 0x58 [0x20; 0x03] 0;
          EvTx 0x58 (baseline_frame (elems b ++ spare b)) 0] /\
       fst (sgp30.SetBaseline b w) <> Panic
  else snd (sgp30.SetBaseline b w) = w /\
       is_ok (fst (sgp30.SetBaseline b w)) = false /\
       (fst (sgp30.SetBaseline b w) = Panic <->
        (cap b < 3)%nat \/
        ((cap b < 6)%nat /\
         sgp30.checkCRC8 (sub (elems b ++ spare b) 0 3) = true)).
Proof.
  rewrite groups_2. cbn [all_valid forallb]. rewrite andb_true_r.
  destruct w as [bs c t f ro sl lg].
  unfold events_since. cbn [log].
  run_sgp30. unfold reslice.
  remember (3 <=? cap b)%nat as c3 eqn:H3.
  remember (6 <=? cap b)%nat as c6 eqn:H6.
  symmetry in H3, H6.
  cbn [Nat.leb andb].
  destruct c3.
  - apply Nat.leb_le in H3.
    destruct (sgp30.checkCRC8 (sub (elems b ++ spare b) 0 3)) eqn:Hg1;
      cbn [negb andb].
    + destruct c6; cbn [andb].
      * destruct (sgp30.checkCRC8 (sub (elems b ++ spare b) 3 6)) eqn:Hg2;
          cbn [negb andb].
        -- run_world. unfold baseline_frame, swap_groups.
           destruct bs as [|[r0|] [|[r1|] rest]];
             cbn [fst snd log]; rewrite <- ?app_assoc; cbn [app];
             rewrite skipn_log; split; first [reflexivity|discriminate].
        -- cbn [fst snd is_ok]. split; [reflexivity|].
           split; [reflexivity|]. apply Nat.leb_le in H6.
           split; [discriminate|]. intros [H|[H _]]; lia.
      * cbn [fst snd is_ok]. apply Nat.leb_gt in H6.
        split; [reflexivity|]. split; [reflexivity|].
        split; [intros _|reflexivity]. right. split; [exact H6|reflexivity].
    + rewrite andb_false_r. cbn [fst snd is_ok].
      split; [reflexivity|]. split; [reflexivity|].
      split; [discriminate|]. intros [H|[_ H]]; [lia|discriminate H].
  - apply Nat.leb_gt in H3.
    assert (H6' : c6 = false)
      by (rewrite <- H6; apply Nat.leb_gt; lia).
    rewrite H6'. cbn [andb fst snd is_ok].
    split; [reflexivity|]. split; [reflexivity|].
    split; [intros _|reflexivity]. left. exact H3.
Qed.



